(** * TaskMatrix HTTP facade ([http_server.py]): model and properties

    The facade is a FastAPI application with four routes.  Three of them
    return documents built from the configuration constants; the fourth,
    [POST /api/message], probes the Gradio upstream with one [requests.get]
    and answers according to the outcome.

    The handlers are embedded as programs of a small interaction monad
    [io]: a program returns, raises, or performs an outbound HTTP call and
    continues with its outcome.  Running a program against a [world] (the
    upstream as the facade sees it) yields the log of calls together with
    the result, so statements about what is sent, how often, and what comes
    back are all statements about [run]. *)

From Stdlib Require Import ZArith String Ascii List.
From stdpp Require Import base option strings gmap pretty.

Local Open Scope string_scope.
Local Open Scope Z_scope.

(** ** JSON values

    Objects keep their members in textual order (a Python [dict] preserves
    insertion order, and a parsed body may repeat a key).  A float is
    carried by the text Python's [str] prints for it; nothing here computes
    with floats.  Text is held in UTF-8. *)
#[local] Set Warnings "-register-all".
Inductive json : Type :=
| JNull
| JBool (b : bool)
| JInt (n : Z)
| JFloat (repr : string)
| JStr (s : string)
| JArr (items : list json)
| JObj (members : list (string * json)).

(** [d.get(key)] on a parsed JSON object: [json.loads] keeps the last
    occurrence of a repeated key. *)
Fixpoint dict_get (key : string) (members : list (string * json)) : option json :=
  match members with
  | [] => None
  | (k, v) :: rest =>
      match dict_get key rest with
      | Some v' => Some v'
      | None => if decide (k = key) then Some v else None
      end
  end.

(** ** Configuration (lines 16-19)

    [os.environ] is a map from names to text. *)
Record config : Type := Config {
  GRADIO_HOST : string;
  GRADIO_PORT : Z;
  HTTP_PORT : Z
}.

(** *** Python's [int(text)], base 10, on ASCII text

    Surrounding whitespace (tab to carriage return, and the space) is
    dropped, one sign is allowed, and digits may be grouped by single
    underscores.  A text of more than [max_str_digits] digits is refused,
    as CPython does by default.  Digits and spaces outside ASCII, which
    [int] also reads, are not modelled: on a text with a byte above 127
    this function says nothing about the program. *)
Definition is_space (c : ascii) : bool :=
  let n := Z.of_nat (nat_of_ascii c) in
  ((9 <=? n) && (n <=? 13)) || (n =? 32).

(** [sys.int_info.default_max_str_digits] *)
Definition max_str_digits : nat := 4300.

Fixpoint digit_count (s : string) : nat :=
  match s with
  | EmptyString => O
  | String c rest =>
      let n := Z.of_nat (nat_of_ascii c) in
      if (48 <=? n) && (n <=? 57) then S (digit_count rest) else digit_count rest
  end.

Definition digit_val (c : ascii) : option Z :=
  let n := Z.of_nat (nat_of_ascii c) in
  if (48 <=? n) && (n <=? 57) then Some (n - 48) else None.

Fixpoint lstrip (s : string) : string :=
  match s with
  | String c rest => if is_space c then lstrip rest else s
  | EmptyString => EmptyString
  end.

Fixpoint rstrip (s : string) : string :=
  match s with
  | String c rest =>
      match rstrip rest with
      | EmptyString => if is_space c then EmptyString else String c EmptyString
      | r => String c r
      end
  | EmptyString => EmptyString
  end.

(** [after_digit] records whether the previous character was a digit: an
    underscore is accepted only between two digits. *)
Fixpoint int_digits (acc : Z) (after_digit : bool) (s : string) : option Z :=
  match s with
  | EmptyString => if after_digit then Some acc else None
  | String c rest =>
      match digit_val c with
      | Some d => int_digits (10 * acc + d) true rest
      | None =>
          if Ascii.eqb c "_" && after_digit then int_digits acc false rest
          else None
      end
  end.

(** [None] stands for [ValueError]. *)
Definition py_int (s : string) : option Z :=
  let stripped := rstrip (lstrip s) in
  if (max_str_digits <? digit_count stripped)%nat then None
  else
    match stripped with
    | String "-" digits => Z.opp <$> int_digits 0 false digits
    | String "+" digits => int_digits 0 false digits
    | digits => int_digits 0 false digits
    end.

(** The three module-level assignments.  [environ.get(name, default)]
    yields the default when the name is unset; for the two ports the
    default is already an [int], which [int] returns unchanged.  A port
    that does not parse raises at import time: no application exists. *)
Definition load_config (environ : gmap string string) : option config :=
  let host := default "localhost" (environ !! "GRADIO_HOST") in
  gradio_port ← match environ !! "WEB_PORT" with
                | Some s => py_int s
                | None => Some 7861
                end;
  http_port ← match environ !! "HTTP_PORT" with
              | Some s => py_int s
              | None => Some 8000
              end;
  Some (Config host gradio_port http_port).

(** ** Exceptions

    What a library call can raise, as far as the [except] clauses of the
    source tell classes apart: [requests.exceptions.RequestException]
    (with its subclasses [ConnectionError], [Timeout], ...) and every other
    instance of [Exception].  Each carries its [str(e)].  What lies outside
    [Exception] ([KeyboardInterrupt], [SystemExit]) ends the process and is
    no part of a handler's run. *)
Inductive lib_error : Type :=
| RequestError (text : string)
| OtherError (text : string).

(** What travels up the handler: FastAPI's [HTTPException], built by the
    handler itself, or an error of a library call. *)
Inductive exn : Type :=
| HTTPException (code : Z) (detail : string)
| Lib (e : lib_error).

(** [str(e)].  Starlette prints an [HTTPException] as "status: detail";
    no path of the handlers below prints one. *)
Definition str (e : exn) : string :=
  match e with
  | HTTPException code detail => pretty code +:+ ": " +:+ detail
  | Lib (RequestError text) => text
  | Lib (OtherError text) => text
  end.

(** The classes named in [except] clauses, and [isinstance]. *)
Inductive exn_class : Type :=
| cHTTPException
| cRequestException
| cException.

Definition isinstance (e : exn) (cls : exn_class) : bool :=
  match cls, e with
  | cException, _ => true
  | cHTTPException, HTTPException _ _ => true
  | cRequestException, Lib (RequestError _) => true
  | _, _ => false
  end.

(** ** Outbound calls and the upstream *)
Record call : Type := Call {
  c_method : string;
  c_url : string;
  c_timeout : option Z;
  c_body : option string
}.

(** A [requests.Response], as far as a caller can read it. *)
Record response : Type := Response {
  status_code : Z;
  text : string
}.

Inductive outcome : Type :=
| Responded (r : response)
| Failed (e : lib_error).

(** The upstream is unstable: what it answers may depend on everything
    that happened before. *)
Definition log : Type := list (call * outcome).
Definition world : Type := log -> call -> outcome.

(** ** The interaction monad *)
Inductive io (A : Type) : Type :=
| Ret (a : A)
| Raise (e : exn)
| Perform (c : call) (k : outcome -> io A).
Arguments Ret {A} a.
Arguments Raise {A} e.
Arguments Perform {A} c k.

Fixpoint bind {A B : Type} (m : io A) (f : A -> io B) : io B :=
  match m with
  | Ret a => f a
  | Raise e => Raise e
  | Perform c k => Perform c (fun o => bind (k o) f)
  end.

#[global] Instance io_ret : MRet io := @Ret.
#[global] Instance io_bind : MBind io := fun A B f m => bind m f.

(** [try: body / except cls as e: handler e / ...]: the first clause whose
    class the raised exception is an instance of handles it; an exception
    no clause matches goes on up. *)
Definition clause (A : Type) : Type := exn_class * (exn -> io A).

Definition handle {A : Type} (clauses : list (clause A)) (e : exn) : io A :=
  match find (fun cl => isinstance e (fst cl)) clauses with
  | Some cl => snd cl e
  | None => Raise e
  end.

Fixpoint try_except {A : Type} (body : io A) (clauses : list (clause A)) : io A :=
  match body with
  | Ret a => Ret a
  | Raise e => handle clauses e
  | Perform c k => Perform c (fun o => try_except (k o) clauses)
  end.

Inductive result (A : Type) : Type :=
| Returned (a : A)
| Raised (e : exn).
Arguments Returned {A} a.
Arguments Raised {A} e.

(** [run w seen m]: the interactions (earlier ones first) and the result of
    [m] against the upstream [w]. *)
Fixpoint run {A : Type} (w : world) (seen : log) (m : io A) : log * result A :=
  match m with
  | Ret a => (seen, Returned a)
  | Raise e => (seen, Raised e)
  | Perform c k => let o := w seen c in run w (seen ++ [(c, o)])%list (k o)
  end.

(** [requests.get(url, timeout=t)]: one GET, no parameters, no body. *)
Definition get_call (url : string) (timeout : Z) : call :=
  Call "GET" url (Some timeout) None.

Definition requests_get (url : string) (timeout : Z) : io response :=
  Perform (get_call url timeout)
    (fun o => match o with
              | Responded r => Ret r
              | Failed e => Raise (Lib e)
              end).

(** ** Request and response models (lines 29-39) *)
Record MessageRequest : Type := mkMessageRequest {
  message : string;
  language : string
}.

Record MessageResponse : Type := mkMessageResponse {
  success : bool;
  reply : option string;
  error : option string
}.

(** ** The handlers *)

(** [f"http://{GRADIO_HOST}:{GRADIO_PORT}"] *)
Definition gradio_url (cfg : config) : string :=
  "http://" +:+ GRADIO_HOST cfg +:+ ":" +:+ pretty (GRADIO_PORT cfg).

(** [GET /health] (lines 42-55) *)
Definition health_check (cfg : config) : io json :=
  Ret (JObj [("status", JStr "healthy");
             ("service", JStr "TaskMatrix API");
             ("version", JStr "1.0.0");
             ("gradio_port", JInt (GRADIO_PORT cfg));
             ("http_port", JInt (HTTP_PORT cfg))]).

(** [GET /] (lines 58-72) *)
Definition root (cfg : config) : io json :=
  Ret (JObj [("name", JStr "TaskMatrix API");
             ("version", JStr "1.0.0");
             ("description", JStr "Visual ChatGPT - Multi-Modal AI Assistant");
             ("endpoints",
              JObj [("health", JStr "/health");
                    ("message", JStr "/api/message (POST)");
                    ("gradio", JStr (gradio_url cfg))])]).

(** [GET /info] (lines 120-138) *)
Definition get_info (cfg : config) : io json :=
  Ret (JObj [("service", JStr "TaskMatrix Visual ChatGPT");
             ("version", JStr "1.0.0");
             ("gradio_host", JStr (GRADIO_HOST cfg));
             ("gradio_port", JInt (GRADIO_PORT cfg));
             ("http_port", JInt (HTTP_PORT cfg));
             ("capabilities",
              JArr [JStr "Image Captioning";
                    JStr "Text to Image Generation";
                    JStr "Visual Question Answering";
                    JStr "Conversation Memory";
                    JStr "Multi-language support"])]).

(** The call of line 96, the liveness probe. *)
Definition probe (cfg : config) : call :=
  get_call (gradio_url cfg +:+ "/") 5.

(** The text of line 106. *)
Definition running_reply (cfg : config) : string :=
  "TaskMatrix Visual ChatGPT is running. Access the Gradio interface at "
  +:+ gradio_url cfg.

(** [POST /api/message] (lines 75-117): the outer [try] with its two
    [except] clauses, and inside it the inner [try] around the probe. *)
Definition send_message (cfg : config) (request : MessageRequest) : io MessageResponse :=
  try_except
    (let gradio_url :=
       "http://" +:+ GRADIO_HOST cfg +:+ ":" +:+ pretty (GRADIO_PORT cfg) in
     _ ← try_except
           (resp ← requests_get (gradio_url +:+ "/") 5;
            if bool_decide (status_code resp ≠ 200)
            then Raise (HTTPException 503 "Gradio service not available")
            else Ret tt)
           [(cRequestException,
             fun e => Raise (HTTPException 503
                               ("Gradio service unavailable: " +:+ str e)))];
     Ret (mkMessageResponse
            true
            (Some ("TaskMatrix Visual ChatGPT is running. Access the Gradio interface at "
                   +:+ gradio_url))
            None))
    [(cHTTPException, fun e => Raise e);
     (cException, fun e => Ret (mkMessageResponse false None (Some (str e))))].

(** ** The framework around the handlers

    Pydantic checks a body against [MessageRequest] before the handler is
    called.  A field annotated [str] takes a JSON string as it is; [null],
    arrays and objects are refused.  Numbers and booleans are turned into
    text by pydantic 1 and refused by pydantic 2; the source does not pin a
    version, so the check is parameterised by it. *)
Inductive pydantic : Type :=
| V1
| V2.

Definition str_validator (v : pydantic) (x : json) : option string :=
  match x, v with
  | JStr s, _ => Some s
  | JInt n, V1 => Some (pretty n)
  | JFloat r, V1 => Some r
  | JBool b, V1 => Some (if b then "True" else "False")
  | _, _ => None
  end.

(** *** A body that is no object

    Pydantic 2 refuses it.  Pydantic 1 tries [dict(body)] first, which
    succeeds on the empty string and on an array whose elements each have
    exactly two items: a two-element array, a string of two characters, an
    object with two keys (iterating an object yields its keys).  The
    fields are then passed as keyword arguments, so every key has to be a
    string. *)
Definition is_continuation (c : ascii) : bool :=
  let n := Z.of_nat (nat_of_ascii c) in
  (128 <=? n) && (n <=? 191).

(** The characters of a UTF-8 text, each with its continuation bytes. *)
Fixpoint code_points (s : string) : list string :=
  match s with
  | EmptyString => []
  | String c rest =>
      match code_points rest with
      | String c' next :: others =>
          if is_continuation c' then String c (String c' next) :: others
          else String c EmptyString :: String c' next :: others
      | others => String c EmptyString :: others
      end
  end.

(** The keys of a parsed object, each once, in the order they first
    appear. *)
Fixpoint distinct_keys (members : list (string * json)) : list string :=
  match members with
  | [] => []
  | (k, _) :: rest =>
      k :: filter (fun k' => negb (bool_decide (k' = k))) (distinct_keys rest)
  end.

Definition as_pair (element : json) : option (json * json) :=
  match element with
  | JArr [a; b] => Some (a, b)
  | JStr s =>
      match code_points s with
      | [a; b] => Some (JStr a, JStr b)
      | _ => None
      end
  | JObj members =>
      match distinct_keys members with
      | [a; b] => Some (JStr a, JStr b)
      | _ => None
      end
  | _ => None
  end.

Fixpoint dict_of_pairs (items : list json) : option (list (string * json)) :=
  match items with
  | [] => Some []
  | element :: rest =>
      match as_pair element with
      | Some (JStr k, x) => cons (k, x) <$> dict_of_pairs rest
      | _ => None
      end
  end.

(** The body as the mapping the fields are read from, if it is one. *)
Definition as_object (v : pydantic) (body : json) : option (list (string * json)) :=
  match body, v with
  | JObj members, _ => Some members
  | JArr items, V1 => dict_of_pairs items
  | JStr EmptyString, V1 => Some []
  | _, _ => None
  end.

(** [message] is required ([Field(...)]); [language] has a default.  Keys
    the model does not name are ignored.  [None] is a validation error. *)
Definition validate (v : pydantic) (body : json) : option MessageRequest :=
  members ← as_object v body;
  m ← dict_get "message" members ≫= str_validator v;
  l ← match dict_get "language" members with
      | Some x => str_validator v x
      | None => Some "English"
      end;
  Some (mkMessageRequest m l).

(** *** The error document

    Pydantic 2 reports with each error the input it refused: the value of
    a field of the wrong type, the whole body for a missing field or for a
    body that is no object.  FastAPI sends the errors as JSON, which has
    no infinity and no NaN; a document that holds one cannot be sent. *)
Definition nonfinite (repr : string) : bool :=
  bool_decide (repr = "inf") || bool_decide (repr = "-inf")
  || bool_decide (repr = "nan").

Definition mentions (k : string) (members : list (string * json)) : bool :=
  existsb (fun member => bool_decide (fst member = k)) members.

(** A member counts when no later one has its key. *)
Fixpoint has_nonfinite (j : json) : bool :=
  match j with
  | JFloat repr => nonfinite repr
  | JArr items =>
      (fix any (l : list json) : bool :=
         match l with
         | [] => false
         | x :: rest => has_nonfinite x || any rest
         end) items
  | JObj members =>
      (fix any (l : list (string * json)) : bool :=
         match l with
         | [] => false
         | (k, x) :: rest =>
             (negb (mentions k rest) && has_nonfinite x) || any rest
         end) members
  | _ => false
  end.

Definition error_inputs (v : pydantic) (body : json) : list json :=
  match v, body with
  | V1, _ => []
  | V2, JObj members =>
      (match dict_get "message" members with
       | None => [body]
       | Some x => match str_validator V2 x with Some _ => [] | None => [x] end
       end ++
       match dict_get "language" members with
       | None => []
       | Some x => match str_validator V2 x with Some _ => [] | None => [x] end
       end)%list
  | V2, _ => [body]
  end.

(** What the client gets. *)
Inductive http_reply : Type :=
| Ok200 (body : json)
| ValidationError422
| HttpError (status : Z) (detail : string)
| InternalServerError500
| Unrouted.

(** A [response_model=MessageResponse] body: all three keys, [None] as
    [null]. *)
Definition opt_str (o : option string) : json :=
  match o with
  | Some s => JStr s
  | None => JNull
  end.

Definition encode (r : MessageResponse) : json :=
  JObj [("success", JBool (success r));
        ("reply", opt_str (reply r));
        ("error", opt_str (error r))].

(** The body FastAPI sends for an [HTTPException]. *)
Definition detail_body (detail : string) : json :=
  JObj [("detail", JStr detail)].

Definition http_status (r : http_reply) : option Z :=
  match r with
  | Ok200 _ => Some 200
  | ValidationError422 => Some 422
  | HttpError status _ => Some status
  | InternalServerError500 => Some 500
  | Unrouted => None
  end.

(** The body of a 422 lists the offending fields in a layout that depends
    on the pydantic version, and that of a 500 is the server's; neither is
    modelled beyond what decides between the two. *)
Definition http_body (r : http_reply) : option json :=
  match r with
  | Ok200 body => Some body
  | HttpError _ detail => Some (detail_body detail)
  | _ => None
  end.

(** A handler's result becomes a reply: a returned value is serialised, an
    [HTTPException] becomes its status and detail, anything else a 500. *)
Definition respond {A : Type} (enc : A -> json) (handler : io A) : io http_reply :=
  try_except
    (a ← handler; Ret (Ok200 (enc a)))
    [(cHTTPException,
      fun e => match e with
               | HTTPException code detail => Ret (HttpError code detail)
               | Lib _ => Ret InternalServerError500
               end);
     (cException, fun _ => Ret InternalServerError500)].

(** An incoming request.  [body] is the parsed JSON body, [None] when the
    request carries none. *)
Record http_request : Type := mkRequest {
  method : string;
  path : string;
  query : string;
  headers : list (string * string);
  body : option json
}.

Definition routed (rq : http_request) (m p : string) : bool :=
  bool_decide (method rq = m) && bool_decide (path rq = p).

(** What a body that does not validate is answered with: the 422 error
    document, or a 500 when that document cannot be sent. *)
Definition refusal (v : pydantic) (body : option json) : http_reply :=
  match body with
  | Some b =>
      if existsb has_nonfinite (error_inputs v b) then InternalServerError500
      else ValidationError422
  | None => ValidationError422
  end.

(** The route table made by the four decorators.  What the framework does
    with any other request (404, 405, redirects, the generated
    documentation pages) is left out as [Unrouted]. *)
Definition app (v : pydantic) (cfg : config) (rq : http_request) : io http_reply :=
  if routed rq "GET" "/health" then respond id (health_check cfg)
  else if routed rq "GET" "/" then respond id (root cfg)
  else if routed rq "POST" "/api/message" then
    match body rq ≫= validate v with
    | Some request => respond encode (send_message cfg request)
    | None => Ret (refusal v (body rq))
    end
  else if routed rq "GET" "/info" then respond id (get_info cfg)
  else Ret Unrouted.

(** One request served against the upstream [w], nothing having happened
    before. *)
Definition serve (v : pydantic) (cfg : config) (w : world) (rq : http_request)
  : log * result http_reply :=
  run w [] (app v cfg rq).

(** The envelope contract of [MessageResponse]. *)
Definition envelope_ok (r : MessageResponse) : bool :=
  match success r, reply r, error r with
  | true, Some _, None => true
  | false, None, Some _ => true
  | _, _, _ => false
  end.

(** A POST to the message route carrying [body]. *)
Definition post_message (body : json) : http_request :=
  mkRequest "POST" "/api/message" "" [] (Some body).

(** An upstream that always gives the same answer. *)
Definition always (o : outcome) : world := fun _ _ => o.

(** An upstream that refuses the first connection and is up afterwards. *)
Definition flaky : world :=
  fun seen _ =>
    match seen with
    | [] => Failed (RequestError "Connection refused")
    | _ => Responded (Response 200 "<html>")
    end.

Definition local_cfg : config := Config "localhost" 7861 8000.

Definition hello : json := JObj [("message", JStr "hi")].

Definition hello_in_chinese : json :=
  JObj [("message", JStr "hi"); ("language", JStr "Chinese")].

(** The same message with a language that is no text. *)
Definition hello_null_language : json :=
  JObj [("message", JStr "hi"); ("language", JNull)].

(** A body without any field. *)
Definition empty_body : json := JObj [].

(** The body [[["message", "hi"]]]: an array of one pair. *)
Definition hello_as_pairs : json := JArr [JArr [JStr "message"; JStr "hi"]].

(** A body whose [message] is the number 1e999, read as infinity. *)
Definition infinite_message : json := JObj [("message", JFloat "inf")].


Definition up : world := always (Responded (Response 200 "<html>")).

Definition environ_9000 : gmap string string := {["HTTP_PORT" := "9000"]}.

(** What [respond] makes of a handler's result. *)
Definition reply_of {A : Type} (enc : A -> json) (r : result A) : http_reply :=
  match r with
  | Returned a => Ok200 (enc a)
  | Raised (HTTPException code detail) => HttpError code detail
  | Raised (Lib _) => InternalServerError500
  end.

(** ** Start-up (lines 141-148)

    What [uvicorn.run] is given. *)
Record uvicorn_args : Type := UvicornArgs {
  u_app : string;
  u_host : string;
  u_port : Z;
  u_reload : bool
}.

Definition main (cfg : config) : uvicorn_args :=
  UvicornArgs "http_server:app" "0.0.0.0" (HTTP_PORT cfg) false.

(** [j.get(key)] on a JSON value that is an object. *)
Definition json_get (key : string) (j : json) : option json :=
  match j with
  | JObj members => dict_get key members
  | _ => None
  end.

(** * The demonstration client ([tutorial_poc.py])

    The client's methods return Python values; a returned [None] is
    [JNull].  What a method prints is returned beside its value, one entry
    per [print].  The cookie jar of its [requests.Session] is not
    represented. *)

(** [s.rstrip(chars)]: [s] without its longest tail made of [chars]. *)
Fixpoint rstrip_chars (chars : ascii -> bool) (s : string) : string :=
  match s with
  | String c rest =>
      match rstrip_chars chars rest with
      | EmptyString => if chars c then EmptyString else String c EmptyString
      | r => String c r
      end
  | EmptyString => EmptyString
  end.

(** Library functions the client calls and this file does not define:
    [response.json()] (a parsed body, or the error it raises), the body
    [requests] makes of [json=payload], and the one it makes of
    [data=..., files=...] with the image's bytes.  Making a body can fail
    (a payload that is no JSON), and then nothing is sent.  For printing,
    [str] of a list or dict and [json.dumps(_, indent=4)]. *)
Record pylib : Type := PyLib {
  response_json : response -> lib_error + json;
  json_dumps : json -> lib_error + string;
  encode_multipart : json -> string -> lib_error + string;
  repr_container : json -> string;
  json_dumps_indent : json -> string
}.

(** [open(path, 'rb').read()]: the bytes, [FileNotFoundError], or another
    exception with its text. *)
Inductive file_read : Type :=
| FileData (bytes : string)
| FileNotFound
| ReadFailed (text : string).

(** [session.get(url)]: no timeout is given. *)
Definition session_get (url : string) : io response :=
  Perform (Call "GET" url None None)
    (fun o => match o with
              | Responded r => Ret r
              | Failed e => Raise (Lib e)
              end).

(** [session.post(url, ..., timeout=t)], given what encoding the body
    came to. *)
Definition session_post (url : string) (payload : lib_error + string) (timeout : Z)
  : io response :=
  match payload with
  | inl e => Raise (Lib e)
  | inr encoded =>
      Perform (Call "POST" url (Some timeout) (Some encoded))
        (fun o => match o with
                  | Responded r => Ret r
                  | Failed e => Raise (Lib e)
                  end)
  end.

(** [chat_history or []] *)
Definition or_empty (chat_history : option (list json)) : list json :=
  match chat_history with
  | Some (x :: rest) => x :: rest
  | _ => []
  end.

(** [{"error": "Request failed"}], what the three POST methods fall back to. *)
Definition request_failed : json :=
  JObj [("error", JStr "Request failed")].

Module VisualChatGPTClient.

Record t : Type := Build {
  base_url : string
}.

(** [__init__] (lines 29-37); the default argument is
    [default_base_url]. *)
Definition default_base_url : string := "http://localhost:11220".

Definition init (url : string) : t :=
  Build (rstrip_chars (Ascii.eqb "/") url).

(** [check_connection] (lines 39-46) *)
Definition check_connection (self : t) : io (list string * bool) :=
  try_except
    (response ← session_get (base_url self +:+ "/");
     Ret ([], bool_decide (status_code response = 200)))
    [(cRequestException,
      fun e => Ret (["Connection failed: " +:+ str e], false))].

(** [get_gradio_config] (lines 48-56).  The [return None] after the [try]
    statement is reached from the [if] that fails and from the handler. *)
Definition get_gradio_config (L : pylib) (self : t) : io (list string * json) :=
  try_except
    (response ← session_get (base_url self +:+ "/config");
     if bool_decide (status_code response = 200)
     then match response_json L response with
          | inr j => Ret ([], j)
          | inl e => Raise (Lib e)
          end
     else Ret ([], JNull))
    [(cRequestException,
      fun e => Ret (["Failed to get config: " +:+ str e], JNull))].

(** [queue_status] (lines 58-66) *)
Definition queue_status (L : pylib) (self : t) : io (list string * json) :=
  try_except
    (response ← session_get (base_url self +:+ "/queue/status");
     if bool_decide (status_code response = 200)
     then match response_json L response with
          | inr j => Ret ([], j)
          | inl e => Raise (Lib e)
          end
     else Ret ([], JNull))
    [(cRequestException,
      fun e => Ret (["Failed to get queue status: " +:+ str e], JNull))].

(** [run_text] (lines 68-102).  [now_ms] is [int(time.time() * 1000)] as
    read when the payload is built; the defaults of [chat_history] and
    [lang] are [None] and "English". *)
Definition run_text (L : pylib) (self : t) (now_ms : Z)
    (text : string) (chat_history : option (list json)) (lang : string)
  : io (list string * json) :=
  let payload :=
    JObj [("data", JArr [JStr text; JArr (or_empty chat_history); JStr lang]);
          ("fn_index", JInt 1);
          ("event_data", JNull);
          ("session_hash", JStr (pretty now_ms))] in
  try_except
    (response ← session_post (base_url self +:+ "/run/text")
                             (json_dumps L payload) 60;
     if bool_decide (status_code response = 200)
     then match response_json L response with
          | inr j => Ret ([], j)
          | inl e => Raise (Lib e)
          end
     else Ret ([], request_failed))
    [(cRequestException,
      fun e => Ret (["Text run failed: " +:+ str e], request_failed))].

(** [run_image] (lines 104-154).  [fs] is the file system as [open] and
    [read] find it. *)
Definition run_image (L : pylib) (fs : string -> file_read) (self : t) (now_ms : Z)
    (image_path : string) (text : string) (chat_history : option (list json))
    (lang : string)
  : io (list string * json) :=
  match fs image_path with
  | FileNotFound =>
      Ret ([], JObj [("error", JStr ("Image file not found: " +:+ image_path))])
  | ReadFailed e =>
      Ret ([], JObj [("error", JStr ("Failed to read image: " +:+ e))])
  | FileData image_data =>
      let data :=
        JObj [("data", JArr [JStr text; JArr (or_empty chat_history); JStr lang]);
              ("fn_index", JInt 2);
              ("session_hash", JStr (pretty now_ms))] in
      try_except
        (response ← session_post (base_url self +:+ "/run/image")
                                 (encode_multipart L data image_data) 60;
         if bool_decide (status_code response = 200)
         then match response_json L response with
              | inr j => Ret ([], j)
              | inl e => Raise (Lib e)
              end
         else Ret ([], request_failed))
        [(cRequestException,
          fun e => Ret (["Image run failed: " +:+ str e], request_failed))]
  end.

(** [clear_memory] (lines 156-174) *)
Definition clear_memory (L : pylib) (self : t) (now_ms : Z) : io (list string * json) :=
  let payload :=
    JObj [("data", JArr []);
          ("fn_index", JInt 3);
          ("session_hash", JStr (pretty now_ms))] in
  try_except
    (response ← session_post (base_url self +:+ "/run/clear")
                             (json_dumps L payload) 10;
     if bool_decide (status_code response = 200)
     then match response_json L response with
          | inr j => Ret ([], j)
          | inl e => Raise (Lib e)
          end
     else Ret ([], request_failed))
    [(cRequestException,
      fun e => Ret (["Clear memory failed: " +:+ str e], request_failed))].

End VisualChatGPTClient.

(** ** The scripted demonstration ([demo_simple], lines 292-325 of
    [tutorial_poc.py])

    A script prints and calls methods.  What it has printed stays printed
    when an exception ends it, so a script's result is its output together
    with either its value or the exception that ended it. *)
Record script (A : Type) : Type := Script {
  steps : io (list string * result A)
}.
Arguments Script {A} steps.
Arguments steps {A} s.

#[global] Instance script_ret : MRet script :=
  fun A a => Script (Ret ([], Returned a)).

#[global] Instance script_bind : MBind script :=
  fun A B f m =>
    Script
      (bind (steps m)
         (fun p =>
            match snd p with
            | Returned a =>
                bind (steps (f a))
                  (fun q => Ret ((fst p ++ fst q)%list, snd q))
            | Raised e => Ret (fst p, Raised e)
            end)).

(** [print(line)] *)
Definition say (line : string) : script unit :=
  Script (Ret ([line], Returned tt)).

(** A method called from a script: its output, and its value or the
    exception that escaped it. *)
Definition calling {A : Type} (m : io (list string * A)) : script A :=
  Script
    (try_except
       (bind m (fun p => Ret (fst p, Returned (snd p))))
       [(cException, fun e => Ret ([], Raised e))]).

(** A value or an exception, inside a script. *)
Definition lift {A : Type} (x : lib_error + A) : script A :=
  match x with
  | inr a => Script (Ret ([], Returned a))
  | inl e => Script (Ret ([], Raised (Lib e)))
  end.

(** [for x in xs: print(f x)] *)
Fixpoint say_each {A : Type} (f : A -> string) (xs : list A) : script unit :=
  match xs with
  | [] => mret tt
  | x :: rest => say (f x);; say_each f rest
  end.

(** [s * n] *)
Fixpoint str_mul (s : string) (n : nat) : string :=
  match n with
  | O => EmptyString
  | S n' => s +:+ str_mul s n'
  end.

(** The line feed, for the literals that start with one. *)
Definition nl : string := String "010" EmptyString.

(** Truth value of a parsed JSON value in an [if]. *)
Definition truthy (j : json) : bool :=
  match j with
  | JNull => false
  | JBool b => b
  | JInt n => negb (n =? 0)
  | JFloat r => negb (bool_decide (r = "0.0") || bool_decide (r = "-0.0"))
  | JStr s => negb (bool_decide (s = EmptyString))
  | JArr items => negb (bool_decide (items = []))
  | JObj members => negb (bool_decide (length members = 0%nat))
  end.

Definition type_name (j : json) : string :=
  match j with
  | JNull => "NoneType"
  | JBool _ => "bool"
  | JInt _ => "int"
  | JFloat _ => "float"
  | JStr _ => "str"
  | JArr _ => "list"
  | JObj _ => "dict"
  end.

(** [x.get(key, default)]: only a dict has the method. *)
Definition py_get (x : json) (key : string) (dflt : json) : lib_error + json :=
  match x with
  | JObj members => inr (default dflt (dict_get key members))
  | _ => inl (OtherError ("'" +:+ type_name x +:+ "' object has no attribute 'get'"))
  end.

(** [str(x)], as an f-string field prints [x]. *)
Definition py_str (L : pylib) (x : json) : string :=
  match x with
  | JNull => "None"
  | JBool true => "True"
  | JBool false => "False"
  | JInt n => pretty n
  | JFloat r => r
  | JStr s => s
  | _ => repr_container L x
  end.

(** [detect_tools] (lines 176-205) *)
Definition detect_tools : list string :=
  ["ImageCaptioning"; "Text2Image"; "Image2Pose"; "Pose2Image"; "Image2Seg";
   "Seg2Image"; "Image2Depth"; "Depth2Image"; "Image2Normal"; "Normal2Image";
   "VisualQuestionAnswering"].

Definition demo_simple (L : pylib) : script unit :=
  say "TaskMatrix Visual ChatGPT - Simple Test";;
  say (str_mul "-" 40);;
  let client := VisualChatGPTClient.init "http://localhost:11220" in
  say "1. Checking connection...";;
  connected ← calling (VisualChatGPTClient.check_connection client);
  if connected : bool then
    say "   Connection: OK";;
    say (nl +:+ "2. Getting Gradio config...");;
    config ← calling (VisualChatGPTClient.get_gradio_config L client);
    (if truthy config then
       say "   Config retrieved successfully";;
       fingerprint ← lift (py_get config "fingerprint" (JStr "N/A"));
       say ("   Fingerprint: " +:+ py_str L fingerprint)
     else
       say "   Failed to get config");;
    say (nl +:+ "3. Checking queue status...");;
    status ← calling (VisualChatGPTClient.queue_status L client);
    (if truthy status then
       say ("   Queue info: " +:+ json_dumps_indent L status)
     else
       say "   Failed to get queue status");;
    say (nl +:+ "4. Available tools:");;
    say_each (fun tool => "   - " +:+ tool) detect_tools
  else
    say "   Connection: FAILED";;
    say (nl +:+ "Make sure the Docker container is running:");;
    say "  ./invoke.sh".

(** An upstream that answers every request with 200 and the body "{}". *)
Definition empty_documents : world := always (Responded (Response 200 "{}")).

(** A library whose [json()] reads the body "{}" as the empty object and
    refuses anything else the way [requests] 2.27 and later do, and whose
    encoders stand for the real ones. *)
Definition sample_lib : pylib :=
  PyLib (fun r => if decide (text r = "{}") then inr (JObj [])
                  else inl (RequestError "Expecting value"))
        (fun _ => inr "<json>")
        (fun _ _ => inr "<multipart>")
        (fun _ => "<repr>")
        (fun _ => "<indented>").

Definition no_files : string -> file_read := fun _ => FileNotFound.

(** All characters of [s] satisfy [p]. *)
Fixpoint string_forall (p : ascii -> bool) (s : string) : bool :=
  match s with
  | EmptyString => true
  | String c rest => p c && string_forall p rest
  end.

Definition is_digit (c : ascii) : bool :=
  match digit_val c with
  | Some _ => true
  | None => false
  end.

(** [n] slashes. *)
Fixpoint slashes (n : nat) : string :=
  match n with
  | O => EmptyString
  | S n' => String "/" (slashes n')
  end.

(** The last character of [s]. *)
Fixpoint last_char (s : string) : option ascii :=
  match s with
  | EmptyString => None
  | String c EmptyString => Some c
  | String _ rest => last_char rest
  end.

(** Ports outside the range of TCP, as decimal text. *)
Definition environ_ports : gmap string string :=
  <["WEB_PORT" := "70000"]> {["HTTP_PORT" := "-1"]}.

Definition get_request (p : string) : http_request :=
  mkRequest "GET" p "" [] None.

(** An upstream that answers 200 with another body than [up]. *)
Definition up_other_body : world :=
  always (Responded (Response 200 "{}")).

Definition hello_with_extra : list (string * json) :=
  [("trace", JInt 7); ("message", JStr "hi")].

(** * Properties *)

(** ** The monad and the framework wrapper *)

Lemma run_bind {A B : Type} (w : world) (m : io A) (f : A -> io B) (seen : log) :
  run w seen (bind m f) =
  match run w seen m with
  | (seen', Returned a) => run w seen' (f a)
  | (seen', Raised e) => (seen', Raised e)
  end.
Proof.
  revert seen; induction m as [a | e | c k IH]; intros seen; simpl; auto.
Qed.

Lemma run_try_except {A : Type} (w : world) (m : io A) (cls : list (clause A)) (seen : log) :
  run w seen (try_except m cls) =
  match run w seen m with
  | (seen', Returned a) => (seen', Returned a)
  | (seen', Raised e) => run w seen' (handle cls e)
  end.
Proof.
  revert seen; induction m as [a | e | c k IH]; intros seen; simpl; auto.
Qed.

Lemma run_respond {A : Type} (enc : A -> json) (w : world) (m : io A) (seen : log) :
  run w seen (respond enc m) =
  (fst (run w seen m), Returned (reply_of enc (snd (run w seen m)))).
Proof.
  unfold respond, mbind, io_bind, mret.
  rewrite run_try_except, run_bind.
  destruct (run w seen m) as [seen' [a | [code detail | e]]]; reflexivity.
Qed.

(** ** The message handler, case by case on the probe's outcome *)

Lemma run_send_message (cfg : config) (w : world) (seen : log) (request : MessageRequest) :
  run w seen (send_message cfg request) =
  ((seen ++ [(probe cfg, w seen (probe cfg))])%list,
   match w seen (probe cfg) with
   | Responded r =>
       if bool_decide (status_code r ≠ 200)
       then Raised (HTTPException 503 "Gradio service not available")
       else Returned (mkMessageResponse true (Some (running_reply cfg)) None)
   | Failed (RequestError t) =>
       Raised (HTTPException 503 ("Gradio service unavailable: " +:+ t))
   | Failed (OtherError t) => Returned (mkMessageResponse false None (Some t))
   end).
Proof.
  unfold send_message, mbind, io_bind. cbv zeta.
  rewrite run_try_except, run_bind, run_try_except, run_bind.
  change (run w seen (requests_get _ 5)) with
    (run w (seen ++ [(probe cfg, w seen (probe cfg))])%list
       match w seen (probe cfg) with
       | Responded r => Ret r
       | Failed e => Raise (Lib e)
       end).
  destruct (w seen (probe cfg)) as [r | [t | t]]; simpl; try reflexivity.
  destruct (bool_decide _); reflexivity.
Qed.


(** ** Routing *)

Lemma app_post_message (v : pydantic) (cfg : config) (rq : http_request) :
  method rq = "POST" -> path rq = "/api/message" ->
  app v cfg rq =
  match body rq ≫= validate v with
  | Some request => respond encode (send_message cfg request)
  | None => Ret (refusal v (body rq))
  end.
Proof.
  intros Hm Hp. unfold app, routed. rewrite Hm, Hp. reflexivity.
Qed.

Lemma serve_post_message (v : pydantic) (cfg : config) (w : world) (rq : http_request) :
  method rq = "POST" -> path rq = "/api/message" ->
  serve v cfg w rq =
  match body rq ≫= validate v with
  | Some request =>
      ([(probe cfg, w [] (probe cfg))],
       Returned (reply_of encode (snd (run w [] (send_message cfg request)))))
  | None => ([], Returned (refusal v (body rq)))
  end.
Proof.
  intros Hm Hp. unfold serve. rewrite app_post_message by assumption.
  destruct (body rq ≫= validate v) as [request |]; [| reflexivity].
  rewrite run_respond, run_send_message. reflexivity.
Qed.

(** A world that answers the probe with [o] makes the handler's result a
    function of [o] alone. *)
Lemma probe_logged (v : pydantic) (cfg : config) (w : world) (rq : http_request) (o : outcome) :
  method rq = "POST" -> path rq = "/api/message" ->
  fst (serve v cfg w rq) = [(probe cfg, o)] ->
  w [] (probe cfg) = o /\ exists request, body rq ≫= validate v = Some request.
Proof.
  intros Hm Hp Hlog. rewrite serve_post_message in Hlog by assumption.
  destruct (body rq ≫= validate v) as [request |]; simpl in Hlog.
  - split; [congruence | eauto].
  - discriminate.
Qed.

Lemma encode_not_detail (detail : string) (r : MessageResponse) :
  detail_body detail <> encode r.
Proof. unfold detail_body, encode. discriminate. Qed.

(** ** [POST /api/message] *)

(** C1: a POST to /api/message whose body has a [message] field, and whose
    liveness probe (the GET to the upstream root) came back with status
    200, is answered with status 200 and the body success=true,
    reply=the fixed sentence ending in the configured upstream address
    http://GRADIO_HOST:GRADIO_PORT, error=null. *)
Theorem message_upstream_reachable
  (v : pydantic) (cfg : config) (w : world) (rq : http_request)
  (members : list (string * json)) (resp : response) :
  method rq = "POST" -> path rq = "/api/message" ->
  body rq = Some (JObj members) -> is_Some (dict_get "message" members) ->
  fst (serve v cfg w rq) = [(probe cfg, Responded resp)] ->
  status_code resp = 200 ->
  (exists answer,
     snd (serve v cfg w rq) = Returned answer /\
     http_status answer = Some 200 /\
     http_body answer =
       Some (JObj [("success", JBool true);
                   ("reply", JStr (running_reply cfg));
                   ("error", JNull)])) /\
  running_reply cfg =
    "TaskMatrix Visual ChatGPT is running. Access the Gradio interface at "
    +:+ ("http://" +:+ GRADIO_HOST cfg +:+ ":" +:+ pretty (GRADIO_PORT cfg)).
Proof.
  intros Hm Hp _ _ Hlog H200.
  destruct (probe_logged v cfg w rq _ Hm Hp Hlog) as [Hw [request Hreq]].
  split; [| reflexivity].
  rewrite serve_post_message, Hreq, run_send_message, Hw by assumption.
  cbn [snd fst reply_of].
  rewrite bool_decide_eq_false_2 by (intros Hne; exact (Hne H200)).
  eexists; repeat split.
Qed.

(** C2: a POST to /api/message with [message] present whose probe raised a
    connectivity error, or came back with a status other than 200, fails
    with status 503 and a detail saying the Gradio service is not
    available.  The handler raises the HTTPException (its catch-all does
    not turn it into a success=false body), and the body sent, the detail
    document, is no envelope. *)
Theorem message_upstream_unavailable
  (v : pydantic) (cfg : config) (w : world) (rq : http_request)
  (members : list (string * json)) (o : outcome) :
  method rq = "POST" -> path rq = "/api/message" ->
  body rq = Some (JObj members) -> is_Some (dict_get "message" members) ->
  fst (serve v cfg w rq) = [(probe cfg, o)] ->
  (exists t, o = Failed (RequestError t)) \/
  (exists r, o = Responded r /\ status_code r <> 200) ->
  exists detail request,
    detail = match o with
             | Failed (RequestError t) => "Gradio service unavailable: " +:+ t
             | _ => "Gradio service not available"
             end /\
    body rq ≫= validate v = Some request /\
    snd (run w [] (send_message cfg request)) = Raised (HTTPException 503 detail) /\
    snd (serve v cfg w rq) = Returned (HttpError 503 detail) /\
    http_status (HttpError 503 detail) = Some 503 /\
    http_body (HttpError 503 detail) = Some (detail_body detail) /\
    forall r : MessageResponse, detail_body detail <> encode r.
Proof.
  intros Hm Hp _ _ Hlog Hdown.
  destruct (probe_logged v cfg w rq _ Hm Hp Hlog) as [Hw [request Hreq]].
  eexists; exists request. split; [reflexivity |]. split; [exact Hreq |].
  rewrite serve_post_message, Hreq, run_send_message, Hw by assumption.
  cbn [snd fst reply_of].
  destruct Hdown as [[t ->] | [r [-> Hne]]]; simpl.
  - repeat split; apply encode_not_detail.
  - rewrite bool_decide_eq_true_2 by exact Hne.
    repeat split; apply encode_not_detail.
Qed.

(** C3: when the probe raises an exception that is no connectivity error
    (the only place of the flow where a foreign exception can arise), the
    handler catches it and returns success=false, reply=null, error=the
    exception's text, sent with status 200; the exception does not leave
    the handler. *)
Theorem message_unexpected_error
  (v : pydantic) (cfg : config) (w : world) (rq : http_request) (t : string) :
  method rq = "POST" -> path rq = "/api/message" ->
  fst (serve v cfg w rq) = [(probe cfg, Failed (OtherError t))] ->
  exists request answer,
    body rq ≫= validate v = Some request /\
    snd (run w [] (send_message cfg request)) =
      Returned (mkMessageResponse false None (Some t)) /\
    snd (serve v cfg w rq) = Returned answer /\
    http_status answer = Some 200 /\
    http_body answer =
      Some (JObj [("success", JBool false); ("reply", JNull); ("error", JStr t)]).
Proof.
  intros Hm Hp Hlog.
  destruct (probe_logged v cfg w rq _ Hm Hp Hlog) as [Hw [request Hreq]].
  exists request. eexists. split; [exact Hreq |].
  rewrite serve_post_message, Hreq, run_send_message, Hw by assumption.
  cbn [snd fst reply_of].
  repeat split.
Qed.

(** ** Validation *)

Lemma validate_Some (v : pydantic) (b : json) (request : MessageRequest) :
  validate v b = Some request <->
  exists members,
    as_object v b = Some members /\
    dict_get "message" members ≫= str_validator v = Some (message request) /\
    match dict_get "language" members with
    | Some x => str_validator v x = Some (language request)
    | None => language request = "English"
    end.
Proof.
  unfold validate. split.
  - destruct (as_object v b) as [members |]; [| discriminate]. simpl.
    intros H. exists members. split; [reflexivity |].
    destruct (dict_get "message" members ≫= str_validator v) as [m |];
      [| discriminate].
    destruct (dict_get "language" members) as [x |]; simpl in H.
    + destruct (str_validator v x) as [l |]; [| discriminate].
      simpl in H. injection H as <-. auto.
    + injection H as <-. auto.
  - intros [members [-> [Hm Hl]]]. simpl. rewrite Hm. simpl.
    destruct request as [m l]; simpl in *.
    destruct (dict_get "language" members) as [x |].
    + rewrite Hl. reflexivity.
    + rewrite Hl. reflexivity.
Qed.


Lemma refusal_cases (v : pydantic) (ob : option json) :
  refusal v ob = ValidationError422 \/ refusal v ob = InternalServerError500.
Proof.
  unfold refusal. destruct ob as [b |]; [| auto].
  destruct (existsb _ _); auto.
Qed.




(** ** The static routes *)

(** C5: with HTTP_PORT=9000 and WEB_PORT unset the configuration loads, and
    under it every GET /health, whatever else the request carries and
    whatever the upstream does, is answered with the body
    {status: healthy, service: TaskMatrix API, version: 1.0.0,
    gradio_port: 7861, http_port: 9000}, without any outbound call. *)
Theorem health_example
  (environ : gmap string string) (v : pydantic) (w : world) (rq : http_request) :
  environ !! "HTTP_PORT" = Some "9000" -> environ !! "WEB_PORT" = None ->
  method rq = "GET" -> path rq = "/health" ->
  exists cfg,
    load_config environ = Some cfg /\
    serve v cfg w rq =
      ([], Returned (Ok200 (JObj [("status", JStr "healthy");
                                  ("service", JStr "TaskMatrix API");
                                  ("version", JStr "1.0.0");
                                  ("gradio_port", JInt 7861);
                                  ("http_port", JInt 9000)]))).
Proof.
  intros Hhttp Hweb Hm Hp.
  exists (Config (default "localhost" (environ !! "GRADIO_HOST")) 7861 9000).
  split.
  - unfold load_config. rewrite Hhttp, Hweb. reflexivity.
  - unfold serve, app, routed. rewrite Hm, Hp. reflexivity.
Qed.

(** C6: two GET requests to the same one of /health, / and /info get the
    same answer under one configuration, whatever the requests carry and
    whatever the upstream would answer; the answer is a 200 document and no
    outbound call is made for it. *)
Theorem static_routes_deterministic
  (v1 v2 : pydantic) (cfg : config) (w1 w2 : world) (rq1 rq2 : http_request) :
  method rq1 = "GET" -> method rq2 = "GET" -> path rq1 = path rq2 ->
  path rq1 = "/health" \/ path rq1 = "/" \/ path rq1 = "/info" ->
  serve v1 cfg w1 rq1 = serve v2 cfg w2 rq2 /\
  fst (serve v1 cfg w1 rq1) = [] /\
  exists doc, snd (serve v1 cfg w1 rq1) = Returned (Ok200 doc).
Proof.
  intros Hm1 Hm2 Hpath Hp. unfold serve, app, routed.
  rewrite Hm1, Hm2, <- Hpath.
  destruct Hp as [-> | [-> | ->]]; simpl; eauto.
Qed.

(** ** The envelope, the unused field, and the single probe *)

(** C7: whatever the upstream does, the handler either returns an envelope
    in which exactly one of reply and error is set -- reply with
    success=true, error with success=false -- or raises the 503
    HTTPException; it has no third outcome. *)
Theorem envelope_invariant
  (cfg : config) (w : world) (seen : log) (request : MessageRequest) :
  match snd (run w seen (send_message cfg request)) with
  | Returned r =>
      envelope_ok r = true /\
      ((success r = true /\ is_Some (reply r) /\ error r = None) \/
       (success r = false /\ reply r = None /\ is_Some (error r)))
  | Raised e => exists detail, e = HTTPException 503 detail
  end.
Proof.
  rewrite run_send_message. cbn [snd].
  destruct (w seen (probe cfg)) as [r | [t | t]].
  - destruct (bool_decide _); simpl; eauto 8.
  - eauto.
  - simpl; eauto 8.
Qed.

(** The same on the wire: a 200 body of the message route is the encoding
    of an envelope that satisfies the contract. *)
Lemma served_envelope
  (v : pydantic) (cfg : config) (w : world) (rq : http_request) (b : json) :
  method rq = "POST" -> path rq = "/api/message" ->
  snd (serve v cfg w rq) = Returned (Ok200 b) ->
  exists r, b = encode r /\ envelope_ok r = true.
Proof.
  intros Hm Hp H. rewrite serve_post_message in H by assumption.
  destruct (body rq ≫= validate v) as [request |];
    [| cbn [snd] in H;
       destruct (refusal_cases v (body rq)) as [E | E]; rewrite E in H;
       discriminate].
  rewrite run_send_message in H. cbn [snd] in H.
  destruct (w [] (probe cfg)) as [resp | [t | t]]; simpl in H.
  - destruct (bool_decide _); simpl in H; [discriminate |].
    injection H as <-. eexists; split; reflexivity.
  - discriminate.
  - injection H as <-. eexists; split; reflexivity.
Qed.

(** C8 (as amended): a body without [language] validates to a request
    whose language is "English"; and two requests that pass validation
    with the same message get the same answer, whatever their languages
    (the handler is the same program for both). *)
Theorem language_unused
  (v : pydantic) (cfg : config) (w : world) (rq1 rq2 : http_request)
  (r1 r2 : MessageRequest) :
  method rq1 = "POST" -> path rq1 = "/api/message" ->
  method rq2 = "POST" -> path rq2 = "/api/message" ->
  body rq1 ≫= validate v = Some r1 -> body rq2 ≫= validate v = Some r2 ->
  message r1 = message r2 ->
  serve v cfg w rq1 = serve v cfg w rq2 /\
  send_message cfg r1 = send_message cfg r2 /\
  (forall members,
     body rq1 = Some (JObj members) -> dict_get "language" members = None ->
     language r1 = "English").
Proof.
  intros Hm1 Hp1 Hm2 Hp2 Hr1 Hr2 _.
  split; [| split].
  - rewrite !serve_post_message, Hr1, Hr2 by assumption. reflexivity.
  - reflexivity.
  - intros members Hb Hl. rewrite Hb in Hr1.
    change (validate v (JObj members) = Some r1) in Hr1.
    apply validate_Some in Hr1 as [members' [Heq [_ Hlang]]].
    injection Heq as <-. rewrite Hl in Hlang. exact Hlang.
Qed.

(** In the handler: a run adds exactly one interaction to the log,
    whatever its outcome: a GET of the upstream root
    http://GRADIO_HOST:GRADIO_PORT/ with timeout 5 and no body.  The
    handler is the same program for every request, so nothing of the
    request can reach the upstream. *)
Lemma single_probe
  (cfg : config) (w : world) (seen : log) (request : MessageRequest) :
  fst (run w seen (send_message cfg request)) =
    (seen ++ [(probe cfg, w seen (probe cfg))])%list /\
  probe cfg =
    Call "GET"
         (("http://" +:+ GRADIO_HOST cfg +:+ ":" +:+ pretty (GRADIO_PORT cfg))
          +:+ "/")
         (Some 5) None /\
  forall request' : MessageRequest,
    send_message cfg request' = send_message cfg request.
Proof.
  rewrite run_send_message. repeat split.
Qed.

(** On the wire: a POST to the message route makes the one probe when the
    body passes validation and no call at all when it does not. *)
Lemma served_calls
  (v : pydantic) (cfg : config) (w : world) (rq : http_request) :
  method rq = "POST" -> path rq = "/api/message" ->
  map fst (fst (serve v cfg w rq)) =
  match body rq ≫= validate v with
  | Some _ => [probe cfg]
  | None => []
  end.
Proof.
  intros Hm Hp. rewrite serve_post_message by assumption.
  destruct (body rq ≫= validate v); reflexivity.
Qed.

(** C9 (as amended): a POST to /api/message that passes validation causes
    exactly one outbound interaction, whatever its outcome (no retry): a
    GET of the upstream root http://GRADIO_HOST:GRADIO_PORT/ with timeout
    5 and no body; one that is refused by validation causes none.  The
    handler is the same program for every request, so nothing of the
    request can reach the upstream. *)
Theorem single_probe_per_valid_request
  (v : pydantic) (cfg : config) (w : world) (rq : http_request) :
  method rq = "POST" -> path rq = "/api/message" ->
  (forall request,
     body rq ≫= validate v = Some request ->
     fst (serve v cfg w rq) = [(probe cfg, w [] (probe cfg))]) /\
  (body rq ≫= validate v = None -> fst (serve v cfg w rq) = []) /\
  probe cfg =
    Call "GET"
         (("http://" +:+ GRADIO_HOST cfg +:+ ":" +:+ pretty (GRADIO_PORT cfg))
          +:+ "/")
         (Some 5) None /\
  (forall request request' : MessageRequest,
     send_message cfg request' = send_message cfg request) /\
  (forall seen request,
     fst (run w seen (send_message cfg request)) =
       (seen ++ [(probe cfg, w seen (probe cfg))])%list).
Proof.
  intros Hm Hp. split; [| split; [| split; [| split]]].
  - intros request Hreq. rewrite serve_post_message, Hreq by assumption.
    reflexivity.
  - intros Hnone. rewrite serve_post_message, Hnone by assumption. reflexivity.
  - reflexivity.
  - reflexivity.
  - intros seen request. apply single_probe.
Qed.

(** C10: the handler answers success exactly when the probe came back with
    status 200; any other status, 204 included, raises the 503
    HTTPException "Gradio service not available". *)
Theorem probe_requires_200
  (cfg : config) (w : world) (seen : log) (request : MessageRequest) :
  ((exists r, snd (run w seen (send_message cfg request)) = Returned r /\
              success r = true) <->
   (exists resp, w seen (probe cfg) = Responded resp /\ status_code resp = 200)) /\
  (forall resp,
     w seen (probe cfg) = Responded resp -> status_code resp <> 200 ->
     snd (run w seen (send_message cfg request)) =
       Raised (HTTPException 503 "Gradio service not available")) /\
  (forall body204,
     w seen (probe cfg) = Responded (Response 204 body204) ->
     snd (run w seen (send_message cfg request)) =
       Raised (HTTPException 503 "Gradio service not available")).
Proof.
  rewrite run_send_message. cbn [snd].
  split; [| split].
  - destruct (w seen (probe cfg)) as [resp | [t | t]].
    + destruct (decide (status_code resp = 200)) as [H200 | Hne].
      * rewrite bool_decide_eq_false_2 by (intros H; exact (H H200)).
        split; eauto.
      * rewrite bool_decide_eq_true_2 by exact Hne.
        split.
        -- intros [r [H _]]. discriminate.
        -- intros [resp' [H H200]]. injection H as <-. contradiction.
    + split.
      * intros [r [H _]]. discriminate.
      * intros [resp [H _]]. discriminate.
    + split.
      * intros [r [H Hs]]. injection H as <-. discriminate.
      * intros [resp [H _]]. discriminate.
  - intros resp -> Hne. rewrite bool_decide_eq_true_2 by exact Hne. reflexivity.
  - intros body204 ->. reflexivity.
Qed.

(** ** The theorems at concrete inputs *)

Lemma message_upstream_reachable_witness :
  (exists answer,
     snd (serve V2 local_cfg up (post_message hello)) = Returned answer /\
     http_status answer = Some 200 /\
     http_body answer =
       Some (JObj [("success", JBool true);
                   ("reply", JStr (running_reply local_cfg));
                   ("error", JNull)])) /\
  running_reply local_cfg =
    "TaskMatrix Visual ChatGPT is running. Access the Gradio interface at "
    +:+ ("http://" +:+ "localhost" +:+ ":" +:+ pretty 7861).
Proof.
  apply (message_upstream_reachable V2 local_cfg up (post_message hello)
           [("message", JStr "hi")] (Response 200 "<html>"));
    try reflexivity.
  exists (JStr "hi"); reflexivity.
Defined.

Lemma message_upstream_unavailable_witness :
  exists detail request,
    detail = "Gradio service unavailable: " +:+ "Connection refused" /\
    body (post_message hello) ≫= validate V2 = Some request /\
    snd (run flaky [] (send_message local_cfg request)) =
      Raised (HTTPException 503 detail) /\
    snd (serve V2 local_cfg flaky (post_message hello)) =
      Returned (HttpError 503 detail) /\
    http_status (HttpError 503 detail) = Some 503 /\
    http_body (HttpError 503 detail) = Some (detail_body detail) /\
    forall r : MessageResponse, detail_body detail <> encode r.
Proof.
  apply (message_upstream_unavailable V2 local_cfg flaky (post_message hello)
           [("message", JStr "hi")] (Failed (RequestError "Connection refused")));
    try reflexivity.
  - exists (JStr "hi"); reflexivity.
  - left. exists "Connection refused". reflexivity.
Defined.

Lemma message_unexpected_error_witness :
  exists request answer,
    body (post_message hello) ≫= validate V1 = Some request /\
    snd (run (always (Failed (OtherError "boom"))) []
           (send_message local_cfg request)) =
      Returned (mkMessageResponse false None (Some "boom")) /\
    snd (serve V1 local_cfg (always (Failed (OtherError "boom")))
           (post_message hello)) = Returned answer /\
    http_status answer = Some 200 /\
    http_body answer =
      Some (JObj [("success", JBool false); ("reply", JNull);
                  ("error", JStr "boom")]).
Proof.
  apply (message_unexpected_error V1 local_cfg
           (always (Failed (OtherError "boom"))) (post_message hello) "boom");
    reflexivity.
Defined.



(** C8 as first stated fails: with the same message, the language
    "Chinese" is answered 200 and the language null 422, under either
    pydantic version. *)
Lemma language_value_can_be_refused :
  snd (serve V1 local_cfg up (post_message hello_in_chinese)) =
    Returned (Ok200 (encode (mkMessageResponse
                               true (Some (running_reply local_cfg)) None))) /\
  snd (serve V1 local_cfg up (post_message hello_null_language)) =
    Returned ValidationError422 /\
  snd (serve V2 local_cfg up (post_message hello_in_chinese)) =
    Returned (Ok200 (encode (mkMessageResponse
                               true (Some (running_reply local_cfg)) None))) /\
  snd (serve V2 local_cfg up (post_message hello_null_language)) =
    Returned ValidationError422.
Proof. repeat split. Qed.

(** C9 as first stated fails: a POST whose body has no [message] is
    answered 422 with no outbound interaction at all. *)
Lemma refused_request_makes_no_call :
  serve V1 local_cfg up (post_message empty_body) =
    ([], Returned ValidationError422) /\
  serve V2 local_cfg up (post_message empty_body) =
    ([], Returned ValidationError422).
Proof. repeat split. Qed.

Lemma single_probe_per_valid_request_witness :
  (forall request,
     body (post_message hello) ≫= validate V2 = Some request ->
     fst (serve V2 local_cfg flaky (post_message hello)) =
       [(probe local_cfg, flaky [] (probe local_cfg))]) /\
  (body (post_message hello) ≫= validate V2 = None ->
   fst (serve V2 local_cfg flaky (post_message hello)) = []) /\
  probe local_cfg =
    Call "GET"
         (("http://" +:+ GRADIO_HOST local_cfg +:+ ":" +:+
           pretty (GRADIO_PORT local_cfg)) +:+ "/")
         (Some 5) None /\
  (forall request request' : MessageRequest,
     send_message local_cfg request' = send_message local_cfg request) /\
  (forall seen request,
     fst (run flaky seen (send_message local_cfg request)) =
       (seen ++ [(probe local_cfg, flaky seen (probe local_cfg))])%list).
Proof.
  apply (single_probe_per_valid_request V2 local_cfg flaky (post_message hello));
    reflexivity.
Defined.

Lemma health_example_witness :
  exists cfg,
    load_config environ_9000 = Some cfg /\
    serve V2 cfg flaky (mkRequest "GET" "/health" "verbose=1" [] (Some hello)) =
      ([], Returned (Ok200 (JObj [("status", JStr "healthy");
                                  ("service", JStr "TaskMatrix API");
                                  ("version", JStr "1.0.0");
                                  ("gradio_port", JInt 7861);
                                  ("http_port", JInt 9000)]))).
Proof.
  apply (health_example environ_9000 V2 flaky
           (mkRequest "GET" "/health" "verbose=1" [] (Some hello)));
    reflexivity.
Defined.

Lemma static_routes_deterministic_witness :
  serve V1 local_cfg up (mkRequest "GET" "/info" "" [] None) =
    serve V2 local_cfg flaky
      (mkRequest "GET" "/info" "x=1" [("Accept", "*/*")] (Some hello)) /\
  fst (serve V1 local_cfg up (mkRequest "GET" "/info" "" [] None)) = [] /\
  exists doc,
    snd (serve V1 local_cfg up (mkRequest "GET" "/info" "" [] None)) =
      Returned (Ok200 doc).
Proof.
  apply (static_routes_deterministic V1 V2 local_cfg up flaky
           (mkRequest "GET" "/info" "" [] None)
           (mkRequest "GET" "/info" "x=1" [("Accept", "*/*")] (Some hello)));
    try reflexivity.
  right; right; reflexivity.
Defined.

Lemma language_unused_witness :
  serve V2 local_cfg up (post_message hello) =
    serve V2 local_cfg up (post_message hello_in_chinese) /\
  send_message local_cfg (mkMessageRequest "hi" "English") =
    send_message local_cfg (mkMessageRequest "hi" "Chinese") /\
  (forall members,
     body (post_message hello) = Some (JObj members) ->
     dict_get "language" members = None ->
     language (mkMessageRequest "hi" "English") = "English").
Proof.
  apply (language_unused V2 local_cfg up (post_message hello)
           (post_message hello_in_chinese)
           (mkMessageRequest "hi" "English") (mkMessageRequest "hi" "Chinese"));
    reflexivity.
Defined.

(** ** Runs *)

(** The first connection is refused: one attempt is logged and the 503
    goes out, although a second attempt would have found the upstream. *)
Example refused_once_is_not_retried :
  serve V2 local_cfg flaky (post_message hello) =
    ([(Call "GET" "http://localhost:7861/" (Some 5) None,
       Failed (RequestError "Connection refused"))],
     Returned (HttpError 503 "Gradio service unavailable: Connection refused")).
Proof. reflexivity. Qed.

Example no_content_is_unavailable :
  serve V2 local_cfg (always (Responded (Response 204 ""))) (post_message hello) =
    ([(Call "GET" "http://localhost:7861/" (Some 5) None,
       Responded (Response 204 ""))],
     Returned (HttpError 503 "Gradio service not available")).
Proof. reflexivity. Qed.

Example null_language_is_refused :
  serve V2 local_cfg up
    (post_message (JObj [("message", JStr "hi"); ("language", JNull)])) =
    ([], Returned ValidationError422).
Proof. reflexivity. Qed.

Example missing_message_is_refused :
  serve V1 local_cfg up (post_message (JObj [("language", JStr "English")])) =
    ([], Returned ValidationError422).
Proof. reflexivity. Qed.

Example array_of_pairs_under_pydantic_1 :
  serve V1 local_cfg up (post_message hello_as_pairs) =
    ([(probe local_cfg, Responded (Response 200 "<html>"))],
     Returned (Ok200 (encode (mkMessageResponse
                                true (Some (running_reply local_cfg)) None)))) /\
  serve V2 local_cfg up (post_message hello_as_pairs) =
    ([], Returned ValidationError422).
Proof. split; reflexivity. Qed.

Example infinite_message_by_version :
  snd (serve V1 local_cfg up (post_message infinite_message)) =
    Returned (Ok200 (encode (mkMessageResponse
                               true (Some (running_reply local_cfg)) None))) /\
  serve V2 local_cfg up (post_message infinite_message) =
    ([], Returned InternalServerError500).
Proof. split; reflexivity. Qed.

Example pairs_of_other_shapes :
  dict_of_pairs [JStr "ab"; JObj [("k", JInt 1); ("v", JInt 2); ("k", JInt 3)]] =
    Some [("a", JStr "b"); ("k", JStr "v")] /\
  dict_of_pairs [JArr [JInt 1; JStr "x"]] = None /\
  dict_of_pairs [JStr "abc"] = None.
Proof. repeat split. Qed.

Example repeated_key_last_wins :
  validate V2 (JObj [("message", JStr "first"); ("message", JStr "second")]) =
    Some (mkMessageRequest "second" "English").
Proof. reflexivity. Qed.

Example int_examples :
  py_int "9000" = Some 9000 /\ py_int " -1_000 " = Some (-1000) /\
  py_int "+7" = Some 7 /\ py_int "0012" = Some 12 /\
  py_int "" = None /\ py_int "1__0" = None /\ py_int "_1" = None /\
  py_int "1_" = None /\ py_int "80a" = None /\ py_int "- 1" = None /\
  py_int (String "028" "80") = None.
Proof. repeat split. Qed.

Example bad_port_no_config :
  load_config {["WEB_PORT" := "http"]} = None.
Proof. reflexivity. Qed.

(** * Further properties of the facade *)

(** ** Ports as text *)

Lemma digit_val_pretty_N_char (d : N) :
  (d < 10)%N -> digit_val (pretty_N_char d) = Some (Z.of_N d).
Proof.
  intros Hd.
  assert (d = 0 \/ d = 1 \/ d = 2 \/ d = 3 \/ d = 4 \/ d = 5 \/ d = 6 \/
          d = 7 \/ d = 8 \/ d = 9)%N as Hcases by lia.
  repeat (destruct Hcases as [-> | Hcases]; [reflexivity |]).
  subst d; reflexivity.
Qed.

Lemma is_digit_not_space (c : ascii) : is_digit c = true -> is_space c = false.
Proof.
  unfold is_digit, digit_val, is_space.
  destruct (_ && _) eqn:E; [| discriminate]. intros _.
  apply andb_true_iff in E as [H1 H2].
  apply Z.leb_le in H1, H2.
  apply orb_false_iff; split.
  - apply andb_false_iff. right. apply Z.leb_gt. lia.
  - apply Z.eqb_neq. lia.
Qed.

Lemma digit_count_length (s : string) : (digit_count s <= String.length s)%nat.
Proof.
  induction s as [| c rest IH]; simpl; [lia |].
  destruct (_ && _); lia.
Qed.

Lemma within_limit (s : string) :
  (String.length s <= 640)%nat -> (max_str_digits <? digit_count s)%nat = false.
Proof.
  intros H. apply Nat.ltb_ge. pose proof (digit_count_length s).
  unfold max_str_digits. lia.
Qed.

(** Reading the digits [pretty_N_go] wrote gives the number back. *)
Lemma int_digits_pretty_N_go (x : N) :
  forall (a : Z) (b : bool) (s : string),
    (0 < x)%N ->
    exists k : Z, 0 <= k /\
      int_digits a b (pretty_N_go x s) = int_digits (a * 10 ^ k + Z.of_N x) true s.
Proof.
  induction (N.lt_wf_0 x) as [x _ IH]. intros a b s Hx.
  rewrite pretty_N_go_step by assumption.
  assert (Hmod : (x `mod` 10 < 10)%N) by (apply N.mod_lt; lia).
  assert (Hdiv : x = (10 * (x `div` 10)%N + x `mod` 10)%N)
    by (apply N.div_mod; lia).
  destruct (N.eq_dec (x `div` 10)%N 0%N) as [Hz | Hnz].
  - rewrite Hz, pretty_N_go_0. simpl.
    rewrite digit_val_pretty_N_char by assumption.
    exists 1. split; [lia |]. f_equal. lia.
  - destruct (IH (x `div` 10)%N) with
      (a := a) (b := b) (s := String (pretty_N_char (x `mod` 10)%N) s)
      as [k [Hk Heq]].
    + apply N.div_lt; lia.
    + lia.
    + rewrite Heq. simpl. rewrite digit_val_pretty_N_char by assumption.
      exists (k + 1). split; [lia |]. f_equal.
      rewrite Z.pow_add_r by lia. lia.
Qed.

Lemma pretty_N_go_digits (x : N) :
  forall s, string_forall is_digit s = true ->
            string_forall is_digit (pretty_N_go x s) = true.
Proof.
  induction (N.lt_wf_0 x) as [x _ IH]. intros s Hs.
  destruct (N.eq_dec x 0%N) as [-> | Hnz]; [rewrite pretty_N_go_0; exact Hs |].
  rewrite pretty_N_go_step by lia.
  apply IH; [apply N.div_lt; lia |]. simpl. rewrite Hs, andb_true_r.
  unfold is_digit. rewrite digit_val_pretty_N_char; [reflexivity |].
  apply N.mod_lt; lia.
Qed.

Lemma pretty_N_go_length (x : N) :
  forall s, (String.length s <= String.length (pretty_N_go x s))%nat.
Proof.
  induction (N.lt_wf_0 x) as [x _ IH]. intros s.
  destruct (N.eq_dec x 0%N) as [-> | Hnz]; [rewrite pretty_N_go_0; lia |].
  rewrite pretty_N_go_step by lia.
  etransitivity; [| apply IH; apply N.div_lt; lia]. simpl. lia.
Qed.

Lemma pretty_N_digits (x : N) :
  string_forall is_digit (pretty x) = true /\ pretty x <> EmptyString.
Proof.
  unfold pretty, pretty_N. destruct (decide (x = 0%N)) as [-> | Hnz].
  - split; [reflexivity | discriminate].
  - split; [apply pretty_N_go_digits; reflexivity |].
    rewrite pretty_N_go_step by lia. intros Hempty.
    pose proof (pretty_N_go_length (x `div` 10)%N
                  (String (pretty_N_char (x `mod` 10)%N) "")) as Hlen.
    rewrite Hempty in Hlen. simpl in Hlen. lia.
Qed.

Lemma lstrip_digits (s : string) :
  string_forall (fun c => negb (is_space c)) s = true -> lstrip s = s.
Proof.
  destruct s as [| c rest]; [reflexivity |]. simpl.
  destruct (is_space c); [discriminate | reflexivity].
Qed.

Lemma rstrip_no_space (s : string) :
  string_forall (fun c => negb (is_space c)) s = true -> rstrip s = s.
Proof.
  induction s as [| c rest IH]; [reflexivity |]. simpl.
  intros H. apply andb_true_iff in H as [Hc Hrest].
  rewrite IH by assumption.
  destruct rest; [| reflexivity].
  destruct (is_space c); [discriminate | reflexivity].
Qed.

Lemma digits_no_space (s : string) :
  string_forall is_digit s = true ->
  string_forall (fun c => negb (is_space c)) s = true.
Proof.
  induction s as [| c rest IH]; [reflexivity |]. simpl.
  intros H. apply andb_true_iff in H as [Hc Hrest].
  rewrite (is_digit_not_space c Hc), IH by assumption. reflexivity.
Qed.

Lemma py_int_unsigned (t : string) :
  string_forall is_digit t = true -> (String.length t <= 640)%nat ->
  py_int t = int_digits 0 false t.
Proof.
  intros Hd Hlen. unfold py_int.
  rewrite lstrip_digits, rstrip_no_space by (apply digits_no_space; exact Hd).
  cbv zeta. rewrite within_limit by exact Hlen.
  destruct t as [| c rest]; [reflexivity |].
  simpl in Hd. apply andb_true_iff in Hd as [Hc _].
  destruct c as [[] [] [] [] [] [] [] []]; try reflexivity; discriminate.
Qed.

Lemma py_int_pretty_N (x : N) :
  (String.length (pretty x) <= 640)%nat -> py_int (pretty x) = Some (Z.of_N x).
Proof.
  intros Hlen. rewrite py_int_unsigned by (apply pretty_N_digits || exact Hlen).
  unfold pretty, pretty_N. destruct (decide (x = 0%N)) as [-> | Hnz].
  - reflexivity.
  - destruct (int_digits_pretty_N_go x 0 false "") as [k [_ Heq]]; [lia |].
    rewrite Heq. simpl. f_equal.
Qed.

(** [int(str(n)) = n], for a text no interpreter setting refuses. *)
Lemma py_int_pretty (n : Z) :
  (String.length (pretty n) <= 640)%nat -> py_int (pretty n) = Some n.
Proof.
  destruct n as [| p | p]; intros Hlen.
  - reflexivity.
  - change (pretty (Z.pos p)) with (pretty (N.pos p)) in *.
    rewrite py_int_pretty_N by exact Hlen. reflexivity.
  - change (pretty (Z.neg p)) with (String "-" (pretty (N.pos p))) in *.
    destruct (pretty_N_digits (N.pos p)) as [Hd Hne].
    assert (Hlen' : (String.length (pretty (N.pos p)) <= 640)%nat)
      by (simpl in Hlen; lia).
    unfold py_int.
    assert (Hns : string_forall (fun c => negb (is_space c))
                    (String "-" (pretty (N.pos p))) = true).
    { simpl. apply digits_no_space. exact Hd. }
    rewrite lstrip_digits, rstrip_no_space by exact Hns.
    cbv zeta. rewrite within_limit by exact Hlen.
    pose proof (py_int_pretty_N (N.pos p) Hlen') as HN.
    rewrite py_int_unsigned in HN by assumption.
    rewrite HN. reflexivity.
Qed.

(** X1: integers that the environment gives as the two ports, written in
    decimal with at most 640 characters (a length at which no interpreter
    setting refuses the conversion), are the ports of the configuration:
    the text is read back to the number it stands for, and no range is
    imposed on it. *)
Theorem config_ports_round_trip (environ : gmap string string) (n m : Z) :
  (String.length (pretty n) <= 640)%nat ->
  (String.length (pretty m) <= 640)%nat ->
  environ !! "WEB_PORT" = Some (pretty n) ->
  environ !! "HTTP_PORT" = Some (pretty m) ->
  load_config environ =
    Some (Config (default "localhost" (environ !! "GRADIO_HOST")) n m).
Proof.
  intros Hn Hm Hweb Hhttp. unfold load_config.
  rewrite Hweb, Hhttp, !py_int_pretty by assumption. reflexivity.
Qed.

(** ** One address, three places *)

(** X3: the address GET / advertises under endpoints.gradio is the one the
    message route probes (with a slash added) and the one its success
    reply points to. *)
Theorem advertised_address_is_probed
  (v : pydantic) (cfg : config) (w w' : world) (rq_root rq_msg : http_request)
  (request : MessageRequest) :
  method rq_root = "GET" -> path rq_root = "/" ->
  method rq_msg = "POST" -> path rq_msg = "/api/message" ->
  body rq_msg ≫= validate v = Some request ->
  exists g doc,
    serve v cfg w rq_root = ([], Returned (Ok200 doc)) /\
    json_get "endpoints" doc ≫= json_get "gradio" = Some (JStr g) /\
    map (fun i => c_url (fst i)) (fst (serve v cfg w' rq_msg)) = [g +:+ "/"] /\
    (forall answer,
       snd (serve v cfg w' rq_msg) = Returned (Ok200 answer) ->
       json_get "success" answer = Some (JBool true) ->
       exists sentence, json_get "reply" answer = Some (JStr (sentence +:+ g))).
Proof.
  intros Hm Hp Hm' Hp' Hreq.
  exists (gradio_url cfg). eexists. split; [| split; [| split]].
  - unfold serve, app, routed. rewrite Hm, Hp. reflexivity.
  - reflexivity.
  - rewrite serve_post_message, Hreq by assumption. reflexivity.
  - intros answer. rewrite serve_post_message, Hreq, run_send_message by assumption.
    cbn [snd]. destruct (w' [] (probe cfg)) as [r | [t | t]]; simpl.
    + destruct (bool_decide _); simpl; [discriminate |].
      intros H _. injection H as <-. eexists. reflexivity.
    + discriminate.
    + intros H Hs. injection H as <-. discriminate.
Qed.

(** X4: GET /health and GET /info report the same two ports, those of the
    configuration, and the own port they report is the one the server is
    started on. *)
Theorem ports_echo_consistent
  (v : pydantic) (cfg : config) (w : world) (rq_health rq_info : http_request) :
  method rq_health = "GET" -> path rq_health = "/health" ->
  method rq_info = "GET" -> path rq_info = "/info" ->
  exists health info,
    snd (serve v cfg w rq_health) = Returned (Ok200 health) /\
    snd (serve v cfg w rq_info) = Returned (Ok200 info) /\
    json_get "gradio_port" health = Some (JInt (GRADIO_PORT cfg)) /\
    json_get "gradio_port" info = Some (JInt (GRADIO_PORT cfg)) /\
    json_get "http_port" health = Some (JInt (u_port (main cfg))) /\
    json_get "http_port" info = Some (JInt (u_port (main cfg))).
Proof.
  intros Hm Hp Hm' Hp'. do 2 eexists.
  split; [| split].
  - unfold serve, app, routed. rewrite Hm, Hp. reflexivity.
  - unfold serve, app, routed. rewrite Hm', Hp'. reflexivity.
  - repeat split.
Qed.

(** ** The message route as a whole *)


(** X6: of the upstream's answer to the probe only the status code
    counts: two upstreams that answer with the same status, whatever the
    bodies they send, get the client the same reply. *)
Theorem upstream_body_ignored
  (v : pydantic) (cfg : config) (w1 w2 : world) (rq : http_request)
  (r1 r2 : response) :
  method rq = "POST" -> path rq = "/api/message" ->
  w1 [] (probe cfg) = Responded r1 -> w2 [] (probe cfg) = Responded r2 ->
  status_code r1 = status_code r2 ->
  snd (serve v cfg w1 rq) = snd (serve v cfg w2 rq).
Proof.
  intros Hm Hp H1 H2 Hs. rewrite !serve_post_message by assumption.
  destruct (body rq ≫= validate v) as [request |]; [| reflexivity].
  rewrite !run_send_message, H1, H2, Hs. reflexivity.
Qed.

(** ** Validation and unknown keys *)



(** * Properties of the demonstration client *)

(** ** [rstrip] *)

#[local] Arguments String.append !s1 s2 : simpl nomatch.

Lemma rstrip_chars_all (p : ascii -> bool) (tail : string) :
  string_forall p tail = true -> rstrip_chars p tail = EmptyString.
Proof.
  induction tail as [| c rest IH]; [reflexivity |]. simpl.
  intros H. apply andb_true_iff in H as [Hc Hrest].
  rewrite IH, Hc by assumption. reflexivity.
Qed.

Lemma rstrip_chars_app (p : ascii -> bool) (s tail : string) :
  string_forall p tail = true ->
  rstrip_chars p (s +:+ tail) = rstrip_chars p s.
Proof.
  intros Htail. induction s as [| c rest IH]; simpl.
  - apply rstrip_chars_all. exact Htail.
  - rewrite IH. reflexivity.
Qed.

Lemma rstrip_chars_decompose (p : ascii -> bool) (s : string) :
  exists tail, s = rstrip_chars p s +:+ tail /\ string_forall p tail = true.
Proof.
  induction s as [| c rest [tail [Heq Htail]]]; simpl.
  - exists EmptyString. split; reflexivity.
  - revert Heq. destruct (rstrip_chars p rest) as [| c' r']; simpl; intros Heq.
    + subst tail. destruct (p c) eqn:Hc.
      * exists (String c rest). simpl. rewrite Hc, Htail. split; reflexivity.
      * exists rest. split; [reflexivity | exact Htail].
    + exists tail. split; [| exact Htail]. f_equal. exact Heq.
Qed.

Lemma rstrip_chars_last (p : ascii -> bool) (s : string) (c : ascii) :
  last_char (rstrip_chars p s) = Some c -> p c = false.
Proof.
  induction s as [| c0 rest IH]; simpl; [discriminate |].
  destruct (rstrip_chars p rest) as [| c' r'] eqn:E.
  - destruct (p c0) eqn:Hc; simpl; [discriminate |].
    intros H; injection H as <-. exact Hc.
  - intros H. apply IH. exact H.
Qed.

Lemma last_char_app (t : string) (c : ascii) :
  last_char (t +:+ String c EmptyString) = Some c.
Proof.
  induction t as [| c0 rest IH]; [reflexivity |]. simpl.
  destruct (rest +:+ String c EmptyString) eqn:E; [| exact IH].
  destruct rest; discriminate.
Qed.

Lemma slashes_all (tail : string) :
  string_forall (Ascii.eqb "/") tail = true ->
  tail = slashes (String.length tail).
Proof.
  induction tail as [| c rest IH]; [reflexivity |].
  cbn [string_forall String.length slashes].
  intros H. apply andb_true_iff in H as [Hc Hrest].
  apply Ascii.eqb_eq in Hc as <-. f_equal. apply IH. exact Hrest.
Qed.

Lemma all_slashes (n : nat) : string_forall (Ascii.eqb "/") (slashes n) = true.
Proof. induction n as [| n IH]; [reflexivity |]. simpl. exact IH. Qed.

(** X8: the client's base URL is the URL it was given without its
    trailing slashes: only slashes are dropped, all of them are, and so
    the base URL never ends in one. *)
Theorem base_url_strips_slashes (url : string) :
  (exists n,
     url = VisualChatGPTClient.base_url (VisualChatGPTClient.init url)
           +:+ slashes n) /\
  (forall t,
     VisualChatGPTClient.base_url (VisualChatGPTClient.init url) <> t +:+ "/").
Proof.
  unfold VisualChatGPTClient.init. cbn [VisualChatGPTClient.base_url]. split.
  - destruct (rstrip_chars_decompose (Ascii.eqb "/") url) as [tail [Heq Htail]].
    exists (String.length tail). rewrite <- (slashes_all tail Htail). exact Heq.
  - intros t Heq.
    pose proof (rstrip_chars_last (Ascii.eqb "/") url "/") as Hlast.
    rewrite Heq, last_char_app in Hlast. specialize (Hlast eq_refl). discriminate.
Qed.

(** X9: slashes at the end of the URL given make no difference to the
    client that is built, and building a client from a client's base URL
    gives the same client. *)
Theorem trailing_slashes_irrelevant (url : string) (n : nat) :
  VisualChatGPTClient.init (url +:+ slashes n) = VisualChatGPTClient.init url /\
  VisualChatGPTClient.init
    (VisualChatGPTClient.base_url (VisualChatGPTClient.init url)) =
  VisualChatGPTClient.init url.
Proof.
  unfold VisualChatGPTClient.init. cbn [VisualChatGPTClient.base_url]. split.
  - rewrite rstrip_chars_app by apply all_slashes. reflexivity.
  - destruct (rstrip_chars_decompose (Ascii.eqb "/") url) as [tail [Heq Htail]].
    rewrite Heq at 2. rewrite rstrip_chars_app by exact Htail. reflexivity.
Qed.

(** ** The GET methods *)

Lemma run_session_get (w : world) (seen : log) (url : string) :
  run w seen (session_get url) =
  ((seen ++ [(Call "GET" url None None, w seen (Call "GET" url None None))])%list,
   match w seen (Call "GET" url None None) with
   | Responded r => Returned r
   | Failed e => Raised (Lib e)
   end).
Proof.
  unfold session_get. simpl.
  destruct (w seen _) as [r | e]; reflexivity.
Qed.

Lemma run_session_post (w : world) (seen : log) (url : string)
    (payload : lib_error + string) (timeout : Z) :
  run w seen (session_post url payload timeout) =
  match payload with
  | inl e => (seen, Raised (Lib e))
  | inr encoded =>
      let c := Call "POST" url (Some timeout) (Some encoded) in
      ((seen ++ [(c, w seen c)])%list,
       match w seen c with
       | Responded r => Returned r
       | Failed e => Raised (Lib e)
       end)
  end.
Proof.
  unfold session_post. destruct payload as [e | encoded]; [reflexivity |].
  simpl. destruct (w seen _) as [r | e]; reflexivity.
Qed.

(** The pattern shared by the methods that return parsed JSON: a status
    other than 200 and a connectivity error both end in [fallback], the
    latter with a printed line; a body that [json()] refuses is handled
    like the error [json()] raises. *)
Lemma run_json_method
    (L : pylib) (w : world) (seen : log) (m : io response)
    (label : string) (fallback : json) :
  run w seen
    (try_except
       (response ← m;
        if bool_decide (status_code response = 200)
        then match response_json L response with
             | inr j => Ret ([], j)
             | inl e => Raise (Lib e)
             end
        else Ret ([], fallback))
       [(cRequestException, fun e => Ret ([label +:+ str e], fallback))]) =
  (fst (run w seen m),
   match snd (run w seen m) with
   | Returned r =>
       if bool_decide (status_code r = 200)
       then match response_json L r with
            | inr j => Returned ([], j)
            | inl (RequestError t) => Returned ([label +:+ t], fallback)
            | inl (OtherError t) => Raised (Lib (OtherError t))
            end
       else Returned ([], fallback)
   | Raised (Lib (RequestError t)) => Returned ([label +:+ t], fallback)
   | Raised e => Raised e
   end).
Proof.
  unfold mbind, io_bind. rewrite run_try_except, run_bind.
  destruct (run w seen m) as [seen' [r | [code detail | [t | t]]]]; simpl;
    try reflexivity.
  destruct (bool_decide _); [| reflexivity].
  destruct (response_json L r) as [[t | t] | j]; reflexivity.
Qed.

Lemma run_check_connection (self : VisualChatGPTClient.t) (w : world) (seen : log) :
  let c := Call "GET" (VisualChatGPTClient.base_url self +:+ "/") None None in
  run w seen (VisualChatGPTClient.check_connection self) =
  ((seen ++ [(c, w seen c)])%list,
   match w seen c with
   | Responded r => Returned ([], bool_decide (status_code r = 200))
   | Failed (RequestError t) => Returned (["Connection failed: " +:+ t], false)
   | Failed (OtherError t) => Raised (Lib (OtherError t))
   end).
Proof.
  intros c. unfold VisualChatGPTClient.check_connection, mbind, io_bind.
  rewrite run_try_except, run_bind, run_session_get. fold c.
  destruct (w seen c) as [r | [t | t]]; reflexivity.
Qed.


(** X11: pointed at the facade's upstream, the client's connection check
    and the facade's probe ask for the same URL and, given the same
    answer, agree: the check is True exactly when the message handler
    answers success. *)
Theorem check_agrees_with_probe
  (cfg : config) (self : VisualChatGPTClient.t) (w w' : world) (seen seen' : log)
  (request : MessageRequest) :
  VisualChatGPTClient.base_url self = gradio_url cfg ->
  w seen (Call "GET" (VisualChatGPTClient.base_url self +:+ "/") None None) =
    w' seen' (probe cfg) ->
  map (fun i => c_url (fst i))
      (skipn (length seen) (fst (run w seen (VisualChatGPTClient.check_connection self)))) =
  map (fun i => c_url (fst i))
      (skipn (length seen') (fst (run w' seen' (send_message cfg request)))) /\
  ((exists printed,
      snd (run w seen (VisualChatGPTClient.check_connection self)) =
        Returned (printed, true)) <->
   (exists r,
      snd (run w' seen' (send_message cfg request)) = Returned r /\
      success r = true)).
Proof.
  intros Hurl Hsame.
  rewrite run_check_connection, run_send_message. cbn [fst snd].
  rewrite !skipn_app, !skipn_all, !Nat.sub_diag. cbn [skipn app map fst].
  split; [unfold probe, get_call; rewrite Hurl; reflexivity |].
  rewrite Hsame. destruct (w' seen' (probe cfg)) as [r | [t | t]].
  - destruct (decide (status_code r = 200)) as [H200 | Hne].
    + rewrite bool_decide_eq_true_2 by exact H200.
      rewrite bool_decide_eq_false_2 by (intros H; exact (H H200)).
      split; eauto.
    + rewrite bool_decide_eq_false_2 by exact Hne.
      rewrite bool_decide_eq_true_2 by exact Hne.
      split; [intros [printed H] | intros [r' [H _]]]; discriminate.
  - split; [intros [printed H] | intros [r' [H _]]]; discriminate.
  - split; [intros [printed H]; discriminate |].
    intros [r' [H Hs]]. injection H as <-. discriminate.
Qed.

Lemma run_get_gradio_config
    (L : pylib) (self : VisualChatGPTClient.t) (w : world) (seen : log) :
  let c := Call "GET" (VisualChatGPTClient.base_url self +:+ "/config") None None in
  run w seen (VisualChatGPTClient.get_gradio_config L self) =
  ((seen ++ [(c, w seen c)])%list,
   match w seen c with
   | Responded r =>
       if bool_decide (status_code r = 200)
       then match response_json L r with
            | inr j => Returned ([], j)
            | inl (RequestError t) =>
                Returned (["Failed to get config: " +:+ t], JNull)
            | inl (OtherError t) => Raised (Lib (OtherError t))
            end
       else Returned ([], JNull)
   | Failed (RequestError t) => Returned (["Failed to get config: " +:+ t], JNull)
   | Failed (OtherError t) => Raised (Lib (OtherError t))
   end).
Proof.
  intros c. unfold VisualChatGPTClient.get_gradio_config.
  rewrite run_json_method, run_session_get. fold c. cbn [fst snd].
  destruct (w seen c) as [r | [t | t]]; reflexivity.
Qed.

Lemma run_queue_status
    (L : pylib) (self : VisualChatGPTClient.t) (w : world) (seen : log) :
  let c := Call "GET" (VisualChatGPTClient.base_url self +:+ "/queue/status")
                None None in
  run w seen (VisualChatGPTClient.queue_status L self) =
  ((seen ++ [(c, w seen c)])%list,
   match w seen c with
   | Responded r =>
       if bool_decide (status_code r = 200)
       then match response_json L r with
            | inr j => Returned ([], j)
            | inl (RequestError t) =>
                Returned (["Failed to get queue status: " +:+ t], JNull)
            | inl (OtherError t) => Raised (Lib (OtherError t))
            end
       else Returned ([], JNull)
   | Failed (RequestError t) =>
       Returned (["Failed to get queue status: " +:+ t], JNull)
   | Failed (OtherError t) => Raised (Lib (OtherError t))
   end).
Proof.
  intros c. unfold VisualChatGPTClient.queue_status.
  rewrite run_json_method, run_session_get. fold c. cbn [fst snd].
  destruct (w seen c) as [r | [t | t]]; reflexivity.
Qed.

(** X12: [get_gradio_config] and [queue_status] each make one GET (of
    /config and /queue/status) and hand back a parsed document only from
    an answer with status 200 -- then they print nothing.  A connectivity
    error is printed and gives None; neither method lets one escape. *)
Theorem getters_none_unless_200
  (L : pylib) (self : VisualChatGPTClient.t) (w : world) (seen : log) :
  let c1 := Call "GET" (VisualChatGPTClient.base_url self +:+ "/config") None None in
  let c2 := Call "GET" (VisualChatGPTClient.base_url self +:+ "/queue/status")
                 None None in
  let out1 := run w seen (VisualChatGPTClient.get_gradio_config L self) in
  let out2 := run w seen (VisualChatGPTClient.queue_status L self) in
  (fst out1 = (seen ++ [(c1, w seen c1)])%list /\
   fst out2 = (seen ++ [(c2, w seen c2)])%list) /\
  (forall printed j,
     snd out1 = Returned (printed, j) -> j <> JNull ->
     printed = [] /\
     exists r, w seen c1 = Responded r /\ status_code r = 200 /\
               response_json L r = inr j) /\
  (forall printed j,
     snd out2 = Returned (printed, j) -> j <> JNull ->
     printed = [] /\
     exists r, w seen c2 = Responded r /\ status_code r = 200 /\
               response_json L r = inr j) /\
  (forall t,
     w seen c1 = Failed (RequestError t) ->
     snd out1 = Returned (["Failed to get config: " +:+ t], JNull)) /\
  (forall t,
     w seen c2 = Failed (RequestError t) ->
     snd out2 = Returned (["Failed to get queue status: " +:+ t], JNull)) /\
  (forall t, snd out1 <> Raised (Lib (RequestError t))) /\
  (forall t, snd out2 <> Raised (Lib (RequestError t))).
Proof.
  intros c1 c2 out1 out2. subst out1 out2.
  rewrite run_get_gradio_config, run_queue_status. fold c1 c2. cbn [fst snd].
  split; [split; reflexivity |].
  split; [| split; [| split; [| split; [| split]]]].
  - intros printed j H Hj. destruct (w seen c1) as [r | [t | t]].
    + destruct (decide (status_code r = 200)) as [H200 | Hne].
      * rewrite bool_decide_eq_true_2 in H by exact H200.
        destruct (response_json L r) as [[t | t] | j'] eqn:E;
          try discriminate; injection H as <- <-; [contradiction | eauto].
      * rewrite bool_decide_eq_false_2 in H by exact Hne.
        injection H as <- <-. contradiction.
    + injection H as <- <-. contradiction.
    + discriminate.
  - intros printed j H Hj. destruct (w seen c2) as [r | [t | t]].
    + destruct (decide (status_code r = 200)) as [H200 | Hne].
      * rewrite bool_decide_eq_true_2 in H by exact H200.
        destruct (response_json L r) as [[t | t] | j'] eqn:E;
          try discriminate; injection H as <- <-; [contradiction | eauto].
      * rewrite bool_decide_eq_false_2 in H by exact Hne.
        injection H as <- <-. contradiction.
    + injection H as <- <-. contradiction.
    + discriminate.
  - intros t ->. reflexivity.
  - intros t ->. reflexivity.
  - intros t. destruct (w seen c1) as [r | [t' | t']]; try discriminate.
    destruct (bool_decide _); [| discriminate].
    destruct (response_json L r) as [[t' | t'] | j']; discriminate.
  - intros t. destruct (w seen c2) as [r | [t' | t']]; try discriminate.
    destruct (bool_decide _); [| discriminate].
    destruct (response_json L r) as [[t' | t'] | j']; discriminate.
Qed.

(** ** The POST methods *)

(** What a POST method ends in, given what sending came to. *)
Lemma json_method_outcome
    (L : pylib) (label : string) (sent : result response)
    (printed : list string) (j : json) :
  match sent with
  | Returned r =>
      if bool_decide (status_code r = 200)
      then match response_json L r with
           | inr j => Returned ([], j)
           | inl (RequestError t) => Returned ([label +:+ t], request_failed)
           | inl (OtherError t) => Raised (Lib (OtherError t))
           end
      else Returned ([], request_failed)
  | Raised (Lib (RequestError t)) => Returned ([label +:+ t], request_failed)
  | Raised e => Raised e
  end = Returned (printed, j) ->
  j = request_failed \/
  (printed = [] /\
   exists r, sent = Returned r /\ status_code r = 200 /\ response_json L r = inr j).
Proof.
  destruct sent as [r | [code detail | [t | t]]]; try discriminate.
  - destruct (decide (status_code r = 200)) as [H200 | Hne].
    + rewrite bool_decide_eq_true_2 by exact H200.
      destruct (response_json L r) as [[t | t] | j'] eqn:E; try discriminate;
        intros H; injection H as <- <-; eauto 6.
    + rewrite bool_decide_eq_false_2 by exact Hne.
      intros H; injection H as <- <-; auto.
  - intros H; injection H as <- <-; auto.
Qed.

Lemma json_method_raises
    (L : pylib) (label : string) (sent : result response) (e : exn) :
  (forall code detail, sent <> Raised (HTTPException code detail)) ->
  match sent with
  | Returned r =>
      if bool_decide (status_code r = 200)
      then match response_json L r with
           | inr j => Returned ([], j)
           | inl (RequestError t) => Returned ([label +:+ t], request_failed)
           | inl (OtherError t) => Raised (Lib (OtherError t))
           end
      else Returned ([], request_failed)
  | Raised (Lib (RequestError t)) => Returned ([label +:+ t], request_failed)
  | Raised e => Raised e
  end = Raised e ->
  exists t, e = Lib (OtherError t).
Proof.
  intros Hno. destruct sent as [r | [code detail | [t | t]]].
  - destruct (bool_decide _); [| discriminate].
    destruct (response_json L r) as [[t | t] | j']; try discriminate.
    intros H; injection H as <-. eauto.
  - destruct (Hno code detail eq_refl).
  - discriminate.
  - intros H; injection H as <-. eauto.
Qed.

Lemma session_post_no_http_exception
    (w : world) (seen : log) (url : string) (payload : lib_error + string)
    (timeout code : Z) (detail : string) :
  snd (run w seen (session_post url payload timeout)) <>
  Raised (HTTPException code detail).
Proof.
  rewrite run_session_post. destruct payload as [e | encoded]; [discriminate |].
  cbn [snd]. destruct (w seen _) as [r | e]; discriminate.
Qed.

Lemma session_post_returned
    (w : world) (seen : log) (url : string) (payload : lib_error + string)
    (timeout : Z) (r : response) :
  snd (run w seen (session_post url payload timeout)) = Returned r ->
  exists c, fst (run w seen (session_post url payload timeout)) =
            (seen ++ [(c, Responded r)])%list.
Proof.
  rewrite run_session_post. destruct payload as [e | encoded]; [discriminate |].
  cbn [fst snd]. destruct (w seen _) as [r' | e]; [| discriminate].
  intros H; injection H as <-. eauto.
Qed.

(** X13: [run_text] sends at most one POST, to /run/text with timeout 60,
    carrying the text, the history and the language under data, function
    index 1 and the clock reading as session hash; nothing is sent when
    the payload cannot be encoded.  Whatever goes wrong with sending or
    with the status, the method returns the error document "Request
    failed" instead of raising; a parsed answer comes only from a status
    200.  No history and an empty history make the same request. *)
Theorem run_text_falls_back
  (L : pylib) (self : VisualChatGPTClient.t) (now_ms : Z)
  (text : string) (chat_history : option (list json)) (lang : string)
  (w : world) (seen : log) :
  let out := run w seen
               (VisualChatGPTClient.run_text L self now_ms text chat_history lang) in
  (exists payload,
     json_get "data" payload =
       Some (JArr [JStr text; JArr (or_empty chat_history); JStr lang]) /\
     json_get "fn_index" payload = Some (JInt 1) /\
     json_get "session_hash" payload = Some (JStr (pretty now_ms)) /\
     fst out =
       match json_dumps L payload with
       | inl _ => seen
       | inr encoded =>
           let c := Call "POST" (VisualChatGPTClient.base_url self +:+ "/run/text")
                         (Some 60) (Some encoded) in
           (seen ++ [(c, w seen c)])%list
       end) /\
  (forall printed j,
     snd out = Returned (printed, j) ->
     j = request_failed \/
     (printed = [] /\
      exists c r, fst out = (seen ++ [(c, Responded r)])%list /\
                  status_code r = 200 /\ response_json L r = inr j)) /\
  (forall e, snd out = Raised e -> exists t, e = Lib (OtherError t)) /\
  VisualChatGPTClient.run_text L self now_ms text None lang =
    VisualChatGPTClient.run_text L self now_ms text (Some []) lang.
Proof.
  intros out. subst out. unfold VisualChatGPTClient.run_text. cbv zeta.
  rewrite run_json_method. cbn [fst snd].
  split; [| split; [| split]].
  - exists (JObj [("data", JArr [JStr text; JArr (or_empty chat_history); JStr lang]);
                  ("fn_index", JInt 1);
                  ("event_data", JNull);
                  ("session_hash", JStr (pretty now_ms))]).
    split; [reflexivity |]. split; [reflexivity |].
    split; [reflexivity |].
    rewrite run_session_post. destruct (json_dumps L _); reflexivity.
  - intros printed j H.
    apply json_method_outcome in H as [H | [Hp [r [Hsent [H200 Hj]]]]]; [auto |].
    right. split; [exact Hp |].
    apply session_post_returned in Hsent as [c Hc]. eauto.
  - intros e H. apply json_method_raises in H; [exact H |].
    intros code detail. apply session_post_no_http_exception.
  - reflexivity.
Qed.

(** X14: [clear_memory] sends at most one POST, to /run/clear with
    timeout 10, with empty data and function index 3, and like
    [run_text] it answers every failure of sending or of the status with
    the error document instead of raising. *)
Theorem clear_memory_falls_back
  (L : pylib) (self : VisualChatGPTClient.t) (now_ms : Z) (w : world) (seen : log) :
  let out := run w seen (VisualChatGPTClient.clear_memory L self now_ms) in
  (exists payload,
     json_get "data" payload = Some (JArr []) /\
     json_get "fn_index" payload = Some (JInt 3) /\
     json_get "session_hash" payload = Some (JStr (pretty now_ms)) /\
     fst out =
       match json_dumps L payload with
       | inl _ => seen
       | inr encoded =>
           let c := Call "POST" (VisualChatGPTClient.base_url self +:+ "/run/clear")
                         (Some 10) (Some encoded) in
           (seen ++ [(c, w seen c)])%list
       end) /\
  (forall printed j,
     snd out = Returned (printed, j) ->
     j = request_failed \/
     (printed = [] /\
      exists c r, fst out = (seen ++ [(c, Responded r)])%list /\
                  status_code r = 200 /\ response_json L r = inr j)) /\
  (forall e, snd out = Raised e -> exists t, e = Lib (OtherError t)).
Proof.
  intros out. subst out. unfold VisualChatGPTClient.clear_memory. cbv zeta.
  rewrite run_json_method. cbn [fst snd].
  split; [| split].
  - exists (JObj [("data", JArr []);
                  ("fn_index", JInt 3);
                  ("session_hash", JStr (pretty now_ms))]).
    split; [reflexivity |]. split; [reflexivity |].
    split; [reflexivity |].
    rewrite run_session_post. destruct (json_dumps L _); reflexivity.
  - intros printed j H.
    apply json_method_outcome in H as [H | [Hp [r [Hsent [H200 Hj]]]]]; [auto |].
    right. split; [exact Hp |].
    apply session_post_returned in Hsent as [c Hc]. eauto.
  - intros e H. apply json_method_raises in H; [exact H |].
    intros code detail. apply session_post_no_http_exception.
Qed.

(** X15: [run_image] reads the file first.  A file that is missing or
    cannot be read gives an error document that names the path or the
    failure, with no request sent and nothing printed; with the file read,
    at most one POST goes to /run/image, with timeout 60, and failures
    are answered as by [run_text]. *)
Theorem run_image_reads_first
  (L : pylib) (fs : string -> file_read) (self : VisualChatGPTClient.t) (now_ms : Z)
  (image_path text : string) (chat_history : option (list json)) (lang : string)
  (w : world) (seen : log) :
  let out := run w seen
               (VisualChatGPTClient.run_image L fs self now_ms image_path text
                  chat_history lang) in
  (fs image_path = FileNotFound ->
   out = (seen, Returned ([], JObj [("error",
                                     JStr ("Image file not found: " +:+ image_path))]))) /\
  (forall e,
     fs image_path = ReadFailed e ->
     out = (seen, Returned ([], JObj [("error",
                                       JStr ("Failed to read image: " +:+ e))]))) /\
  (forall image_data,
     fs image_path = FileData image_data ->
     (exists data,
        json_get "fn_index" data = Some (JInt 2) /\
        fst out =
          match encode_multipart L data image_data with
          | inl _ => seen
          | inr encoded =>
              let c := Call "POST"
                            (VisualChatGPTClient.base_url self +:+ "/run/image")
                            (Some 60) (Some encoded) in
              (seen ++ [(c, w seen c)])%list
          end) /\
     (forall printed j,
        snd out = Returned (printed, j) ->
        j = request_failed \/
        (printed = [] /\
         exists c r, fst out = (seen ++ [(c, Responded r)])%list /\
                     status_code r = 200 /\ response_json L r = inr j)) /\
     (forall e, snd out = Raised e -> exists t, e = Lib (OtherError t))).
Proof.
  intros out. subst out. unfold VisualChatGPTClient.run_image.
  split; [| split].
  - intros ->. reflexivity.
  - intros e ->. reflexivity.
  - intros image_data ->. cbv zeta. rewrite run_json_method. cbn [fst snd].
    split; [| split].
    + exists (JObj [("data", JArr [JStr text; JArr (or_empty chat_history);
                                   JStr lang]);
                    ("fn_index", JInt 2);
                    ("session_hash", JStr (pretty now_ms))]).
      split; [reflexivity |].
      rewrite run_session_post. destruct (encode_multipart L _ _); reflexivity.
    + intros printed j H.
      apply json_method_outcome in H as [H | [Hp [r [Hsent [H200 Hj]]]]]; [auto |].
      right. split; [exact Hp |].
      apply session_post_returned in Hsent as [c Hc]. eauto.
    + intros e H. apply json_method_raises in H; [exact H |].
      intros code detail. apply session_post_no_http_exception.
Qed.

(** ** The scripted demonstration *)

(** One case of the run of [demo_simple]: the next thing the run is stuck
    on is split into its possible values. *)
Ltac demo_case L w :=
  match goal with
  | |- context [w ?s ?c] =>
      destruct (w s c) as [? | [? | ?]] eqn:?
  | |- context [bool_decide (status_code ?r = 200)] =>
      destruct (bool_decide (status_code r = 200)) eqn:?
  | |- context [response_json L ?r] =>
      destruct (response_json L r) as [[? | ?] | ?] eqn:?
  | |- context [truthy ?j] =>
      destruct (truthy j) eqn:?
  | |- context [py_get ?j ?k ?d] =>
      destruct (py_get j k d) as [[? | ?] | ?] eqn:?
  end; cbn -[truthy py_get py_str].

(** X16: [demo_simple] talks to http://localhost:11220 only, with GET
    only, and in a fixed order: the root, then /config, then
    /queue/status.  It stops after the first request exactly when the
    connection check did not get a 200. *)
Theorem demo_simple_footprint (L : pylib) (w : world) :
  let c0 := Call "GET" "http://localhost:11220/" None None in
  let c1 := Call "GET" "http://localhost:11220/config" None None in
  let c2 := Call "GET" "http://localhost:11220/queue/status" None None in
  let calls := map fst (fst (run w [] (steps (demo_simple L)))) in
  (calls = [c0] \/ calls = [c0; c1] \/ calls = [c0; c1; c2]) /\
  (calls = [c0] <->
   ~ exists r, w [] c0 = Responded r /\ status_code r = 200).
Proof.
  intros c0 c1 c2 calls. subst calls c0 c1 c2.
  unfold demo_simple. cbn -[truthy py_get py_str].
  repeat demo_case L w;
    (split; [auto |]);
    (split;
     [ intros Hcalls;
       first
         [ discriminate Hcalls
         | intros [r' [Hw H200]];
           first
             [ discriminate Hw
             | injection Hw as <-;
               match goal with
               | Hb : bool_decide (status_code _ = 200) = false |- _ =>
                   apply bool_decide_eq_false_1 in Hb; contradiction
               end ] ]
     | first
         [ reflexivity
         | intros Hno; exfalso; apply Hno;
           match goal with
           | Hb : bool_decide (status_code ?r = 200) = true |- _ =>
               exists r; split;
               [reflexivity | exact (bool_decide_eq_true_1 _ Hb)]
           end ] ]).
Qed.

(** X17: what [demo_simple] makes of a 200 answer from /config depends on
    the truth value of the parsed document, not on its having been
    retrieved.  A falsy one (an empty object, null, zero) is reported as
    "Failed to get config" and the script goes on to the queue status; a
    non-empty object has its fingerprint printed, "N/A" when it has none;
    any other document ends the script with an AttributeError right after
    "Config retrieved successfully", the queue status never asked for. *)
Theorem demo_simple_config_cases
  (L : pylib) (w : world) (r0 r1 : response) (config : json) :
  let c0 := Call "GET" "http://localhost:11220/" None None in
  let c1 := Call "GET" "http://localhost:11220/config" None None in
  let c2 := Call "GET" "http://localhost:11220/queue/status" None None in
  let out := run w [] (steps (demo_simple L)) in
  w [] c0 = Responded r0 -> status_code r0 = 200 ->
  w [(c0, Responded r0)] c1 = Responded r1 -> status_code r1 = 200 ->
  response_json L r1 = inr config ->
  (truthy config = false ->
   map fst (fst out) = [c0; c1; c2] /\
   exists printed r,
     snd out = Returned (printed, r) /\ In "   Failed to get config" printed) /\
  (forall members,
     config = JObj members -> truthy config = true ->
     map fst (fst out) = [c0; c1; c2] /\
     exists printed r,
       snd out = Returned (printed, r) /\
       In ("   Fingerprint: " +:+
           py_str L (default (JStr "N/A") (dict_get "fingerprint" members)))
          printed) /\
  ((forall members, config <> JObj members) -> truthy config = true ->
   map fst (fst out) = [c0; c1] /\
   exists printed,
     snd out =
       Returned (printed,
                 Raised (Lib (OtherError
                                ("'" +:+ type_name config +:+
                                 "' object has no attribute 'get'")))) /\
     last printed = Some "   Config retrieved successfully").
Proof.
  intros c0 c1 c2 out H0 H200 H1 H200' Hjson. subst out.
  unfold demo_simple. cbn -[truthy py_get py_str]. fold c0. rewrite H0.
  cbn -[truthy py_get py_str]. rewrite (bool_decide_eq_true_2 _ H200).
  cbn -[truthy py_get py_str]. fold c0 c1. rewrite H1.
  cbn -[truthy py_get py_str]. rewrite (bool_decide_eq_true_2 _ H200'), Hjson.
  cbn -[truthy py_get py_str].
  split; [| split].
  - intros Hfalse. rewrite Hfalse. cbn -[truthy py_get py_str].
    repeat demo_case L w;
      (split; [reflexivity |]); do 2 eexists; (split; [reflexivity |]);
      simpl; tauto.
  - intros members -> Htrue. rewrite Htrue. cbn -[truthy py_str].
    repeat demo_case L w;
      (split; [reflexivity |]); do 2 eexists; (split; [reflexivity |]);
      simpl; tauto.
  - intros Hnot Htrue. rewrite Htrue.
    destruct config as [| b | n | r | s | items | members];
      try (cbn -[truthy py_str]; split; [reflexivity |];
           eexists; split; reflexivity).
    destruct (Hnot members eq_refl).
Qed.

(** ** The further properties at concrete inputs *)

Lemma config_ports_round_trip_witness :
  load_config environ_ports = Some (Config "localhost" 70000 (-1)).
Proof.
  apply (config_ports_round_trip environ_ports 70000 (-1));
    try reflexivity; vm_compute; lia.
Defined.

Lemma advertised_address_is_probed_witness :
  exists g doc,
    serve V2 local_cfg flaky (get_request "/") = ([], Returned (Ok200 doc)) /\
    json_get "endpoints" doc ≫= json_get "gradio" = Some (JStr g) /\
    map (fun i => c_url (fst i)) (fst (serve V2 local_cfg up (post_message hello))) =
      [g +:+ "/"] /\
    (forall answer,
       snd (serve V2 local_cfg up (post_message hello)) = Returned (Ok200 answer) ->
       json_get "success" answer = Some (JBool true) ->
       exists sentence, json_get "reply" answer = Some (JStr (sentence +:+ g))).
Proof.
  apply (advertised_address_is_probed V2 local_cfg flaky up (get_request "/")
           (post_message hello) (mkMessageRequest "hi" "English"));
    reflexivity.
Defined.

Lemma ports_echo_consistent_witness :
  exists health info,
    snd (serve V2 local_cfg flaky (get_request "/health")) =
      Returned (Ok200 health) /\
    snd (serve V2 local_cfg flaky (get_request "/info")) =
      Returned (Ok200 info) /\
    json_get "gradio_port" health = Some (JInt (GRADIO_PORT local_cfg)) /\
    json_get "gradio_port" info = Some (JInt (GRADIO_PORT local_cfg)) /\
    json_get "http_port" health = Some (JInt (u_port (main local_cfg))) /\
    json_get "http_port" info = Some (JInt (u_port (main local_cfg))).
Proof.
  apply (ports_echo_consistent V2 local_cfg flaky (get_request "/health")
           (get_request "/info")); reflexivity.
Defined.


Lemma upstream_body_ignored_witness :
  snd (serve V2 local_cfg up (post_message hello)) =
  snd (serve V2 local_cfg up_other_body (post_message hello)).
Proof.
  apply (upstream_body_ignored V2 local_cfg up up_other_body (post_message hello)
           (Response 200 "<html>") (Response 200 "{}")); reflexivity.
Defined.


Lemma check_agrees_with_probe_witness :
  map (fun i => c_url (fst i))
      (skipn (length (@nil (call * outcome)))
         (fst (run up []
                 (VisualChatGPTClient.check_connection
                    (VisualChatGPTClient.init "http://localhost:7861/"))))) =
  map (fun i => c_url (fst i))
      (skipn (length (@nil (call * outcome)))
         (fst (run up [] (send_message local_cfg (mkMessageRequest "hi" "English"))))) /\
  ((exists printed,
      snd (run up []
             (VisualChatGPTClient.check_connection
                (VisualChatGPTClient.init "http://localhost:7861/"))) =
        Returned (printed, true)) <->
   (exists r,
      snd (run up [] (send_message local_cfg (mkMessageRequest "hi" "English"))) =
        Returned r /\
      success r = true)).
Proof.
  apply (check_agrees_with_probe local_cfg
           (VisualChatGPTClient.init "http://localhost:7861/") up up [] []
           (mkMessageRequest "hi" "English")); reflexivity.
Defined.

Lemma demo_simple_config_cases_witness :
  (truthy (JObj []) = false ->
   map fst (fst (run empty_documents [] (steps (demo_simple sample_lib)))) =
     [Call "GET" "http://localhost:11220/" None None;
      Call "GET" "http://localhost:11220/config" None None;
      Call "GET" "http://localhost:11220/queue/status" None None] /\
   exists printed r,
     snd (run empty_documents [] (steps (demo_simple sample_lib))) =
       Returned (printed, r) /\
     In "   Failed to get config" printed) /\
  (forall members,
     JObj [] = JObj members -> truthy (JObj []) = true ->
     map fst (fst (run empty_documents [] (steps (demo_simple sample_lib)))) =
       [Call "GET" "http://localhost:11220/" None None;
        Call "GET" "http://localhost:11220/config" None None;
        Call "GET" "http://localhost:11220/queue/status" None None] /\
     exists printed r,
       snd (run empty_documents [] (steps (demo_simple sample_lib))) =
         Returned (printed, r) /\
       In ("   Fingerprint: " +:+
           py_str sample_lib
             (default (JStr "N/A") (dict_get "fingerprint" members)))
          printed) /\
  ((forall members, JObj [] <> JObj members) -> truthy (JObj []) = true ->
   map fst (fst (run empty_documents [] (steps (demo_simple sample_lib)))) =
     [Call "GET" "http://localhost:11220/" None None;
      Call "GET" "http://localhost:11220/config" None None] /\
   exists printed,
     snd (run empty_documents [] (steps (demo_simple sample_lib))) =
       Returned (printed,
                 Raised (Lib (OtherError
                                ("'" +:+ type_name (JObj []) +:+
                                 "' object has no attribute 'get'")))) /\
     last printed = Some "   Config retrieved successfully").
Proof.
  apply (demo_simple_config_cases sample_lib empty_documents
           (Response 200 "{}") (Response 200 "{}") (JObj [])); reflexivity.
Defined.

(** ** Runs of the client *)

Example config_retrieved :
  run empty_documents []
    (VisualChatGPTClient.get_gradio_config sample_lib
       (VisualChatGPTClient.init VisualChatGPTClient.default_base_url)) =
  ([(Call "GET" "http://localhost:11220/config" None None,
     Responded (Response 200 "{}"))],
   Returned ([], JObj [])).
Proof. reflexivity. Qed.

Example unparsable_answer_is_a_failure :
  run up []
    (VisualChatGPTClient.run_text sample_lib
       (VisualChatGPTClient.init "http://localhost:11220//") 1700000000000
       "describe the image" None "English") =
  ([(Call "POST" "http://localhost:11220/run/text" (Some 60) (Some "<json>"),
     Responded (Response 200 "<html>"))],
   Returned (["Text run failed: Expecting value"], request_failed)).
Proof. reflexivity. Qed.

Example missing_image_sends_nothing :
  run up []
    (VisualChatGPTClient.run_image sample_lib no_files
       (VisualChatGPTClient.init VisualChatGPTClient.default_base_url)
       1700000000000 "cat.png" "" None "English") =
  ([], Returned ([], JObj [("error", JStr "Image file not found: cat.png")])).
Proof. reflexivity. Qed.

Example list_config_ends_the_demo :
  snd (run (always (Responded (Response 200 "[1]"))) []
         (steps (demo_simple
                   (PyLib (fun _ => inr (JArr [JInt 1])) (fun _ => inr "")
                          (fun _ _ => inr "") (fun _ => "[1]") (fun _ => "[1]"))))) =
  Returned
    (["TaskMatrix Visual ChatGPT - Simple Test";
      "----------------------------------------";
      "1. Checking connection..."; "   Connection: OK";
      nl +:+ "2. Getting Gradio config...";
      "   Config retrieved successfully"],
     Raised (Lib (OtherError "'list' object has no attribute 'get'"))).
Proof. reflexivity. Qed.

Example too_many_digits :
  py_int (str_mul "1" 4301) = None /\
  is_Some (py_int (str_mul "1" 4300)) /\
  load_config {["WEB_PORT" := str_mul "1" 4301]} = None.
Proof.
  split; [vm_compute; reflexivity |].
  split; [vm_compute; eexists; reflexivity | vm_compute; reflexivity].
Qed.
